(** * Assignment-Tracker: the export transformer of [example_scraper.py]

    A shallow embedding of [AssignmentScraper.transform_to_sheets_format],
    [transform_to_notion_format], [transform_to_todo_format] and
    [_calculate_days_until_due], with the properties the specification
    states about them.

    Data is what [json.load] produces: a tree of [None], booleans, integers,
    floats, strings, lists and string-keyed dictionaries.  Dictionaries keep
    their insertion order, so they are association lists here.  The wall
    clock is read through [datetime.now]; every reading is a new one, so the
    transformer runs in a small state monad counting the readings made so
    far, and the clock is an oracle over that count. *)

From Stdlib Require Import ZArith List String Ascii Bool Lia Permutation.
From Stdlib Require Import SpecFloat DecimalString.
Import ListNotations.
Local Open Scope string_scope.
Local Open Scope Z_scope.

Set Implicit Arguments.
Set Warnings "-register-all".

(** ** JSON values as Python objects *)

Inductive value : Type :=
| VNone
| VBool (b : bool)
| VInt (z : Z)
| VFloat (f : spec_float)
| VStr (s : string)
| VList (l : list value)
| VDict (d : list (string * value)).

Definition dict : Type := list (string * value).

(** [d.get(k)] looks the key up; a key that is present with value [None]
    is present. *)
Fixpoint lookup (k : string) (d : dict) : option value :=
  match d with
  | [] => None
  | (k', v) :: rest => if String.eqb k k' then Some v else lookup k rest
  end.

(** [d.get(k, default)] *)
Definition get (d : dict) (k : string) (default : value) : value :=
  match lookup k d with
  | Some v => v
  | None => default
  end.

(** [d[k] = v] on a dictionary: an existing key keeps its position, a new
    key goes last. *)
Fixpoint dict_set (d : dict) (k : string) (v : value) : dict :=
  match d with
  | [] => [(k, v)]
  | (k', v') :: rest =>
      if String.eqb k k' then (k', v) :: rest else (k', v') :: dict_set rest k v
  end.

(** Replacing the element at an index of a list; an index out of range
    leaves the list as it is. *)
Fixpoint list_put (l : list value) (i : nat) (v : value) : list value :=
  match l, i with
  | [], _ => []
  | _ :: rest, O => v :: rest
  | x :: rest, S j => x :: list_put rest j v
  end.

(** ** Exceptions *)

Inductive exn : Type :=
| KeyError
| IndexError
| TypeError
| AttributeError
| ValueError.

Inductive result (A : Type) : Type :=
| Ok (a : A)
| Raise (e : exn).

Arguments Ok {A} a.
Arguments Raise {A} e.

Definition rbind {A B : Type} (r : result A) (k : A -> result B) : result B :=
  match r with
  | Ok a => k a
  | Raise e => Raise e
  end.

Declare Scope result_scope.
Delimit Scope result_scope with result.
Notation "'do' x <- r ; k" := (rbind r (fun x => k))
  (at level 10, x name, r at level 100, k at level 200) : result_scope.

(** ** Subscripting

    The subscripts of the source are string and integer literals. *)

Inductive subscript : Type :=
| SKey (k : string)
| SIdx (i : nat).

(** [obj[sub]] as an expression. *)
Definition getitem (obj : value) (sub : subscript) : result value :=
  match obj, sub with
  | VDict d, SKey k =>
      match lookup k d with Some v => Ok v | None => Raise KeyError end
  | VDict _, SIdx _ => Raise KeyError
  | VList l, SIdx i =>
      match nth_error l i with Some v => Ok v | None => Raise IndexError end
  | VList _, SKey _ => Raise TypeError
  | VStr s, SIdx i =>
      match String.get i s with
      | Some c => Ok (VStr (String c EmptyString))
      | None => Raise IndexError
      end
  | VStr _, SKey _ => Raise TypeError
  | _, _ => Raise TypeError
  end.

(** [obj[k] = v] with a string key, returning the object after the
    assignment.  Only a dictionary takes it: a list wants integer indices,
    and no other JSON value supports item assignment. *)
Definition setitem (obj : value) (k : string) (v : value) : result value :=
  match obj with
  | VDict d => Ok (VDict (dict_set d k v))
  | _ => Raise TypeError
  end.

(** Objects are shared, not copied: [obj[sub]] is the very object stored in
    [obj], so that mutating it is seen through [obj].  In this value model
    the mutated child is put back where it was read. *)
Definition put_back (obj : value) (sub : subscript) (child : value) : value :=
  match obj, sub with
  | VDict d, SKey k => VDict (dict_set d k child)
  | VList l, SIdx i => VList (list_put l i child)
  | _, _ => obj
  end.

(** [obj[p1]...[pn][k] = v]: the subscripts are evaluated left to right,
    then the item is assigned in the object reached. *)
Fixpoint assign_at (obj : value) (path : list subscript) (k : string) (v : value)
  : result value :=
  match path with
  | [] => setitem obj k v
  | sub :: rest =>
      (do child <- getitem obj sub;
       do child' <- assign_at child rest k v;
       Ok (put_back obj sub child'))%result
  end.

(** ** The clock monad *)

Definition Clock (A : Type) : Type := nat -> A * nat.

Definition ret {A : Type} (a : A) : Clock A := fun n => (a, n).

Definition bind {A B : Type} (m : Clock A) (k : A -> Clock B) : Clock B :=
  fun n => let (a, n') := m n in k a n'.

Declare Scope clock_scope.
Delimit Scope clock_scope with clock.
Notation "x <- m ;; k" := (bind m (fun x => k))
  (at level 100, m at next level, right associativity) : clock_scope.

(** ** Dates and times

    A [datetime] is its wall-clock reading in microseconds since
    0001-01-01T00:00:00 together with its [tzinfo]: [None] for a naive value,
    a fixed UTC offset in microseconds for an aware one. *)

Record datetime : Type := mkdatetime {
  wall : Z;
  tzinfo : option Z
}.

Definition us_per_day : Z := 86400000000.

(** [a - b] on datetimes, as a number of microseconds; mixing a naive and an
    aware value raises [TypeError]. *)
Definition datetime_sub (a b : datetime) : result Z :=
  match tzinfo a, tzinfo b with
  | None, None => Ok (wall a - wall b)
  | Some oa, Some ob =>
      if Z.eqb oa ob then Ok (wall a - wall b)
      else Ok (wall a - wall b + ob - oa)
  | _, _ => Raise TypeError
  end.

(** [timedelta.days]: a timedelta is normalised so that its seconds and
    microseconds are not negative, which makes [days] the floor. *)
Definition timedelta_days (delta : Z) : Z := delta / us_per_day.

(** ** What the interpreter and its library supply *)

Class Runtime : Type := {
  (** [str(x)] of a float, a list or a dictionary *)
  repr_other : value -> string;
  (** [datetime.fromisoformat]; [None] is its [ValueError] *)
  fromisoformat : string -> option datetime;
  (** the n-th reading of the system clock, in UTC *)
  clock : nat -> Z;
  (** local wall-clock time of a UTC instant *)
  localtime : Z -> Z
}.

Section Transformer.

Context {R : Runtime}.

(** [datetime.now(tz)] at the n-th reading. *)
Definition datetime_now (n : nat) (tz : option Z) : datetime :=
  match tz with
  | None => mkdatetime (localtime (clock n)) None
  | Some off => mkdatetime (clock n + off) (Some off)
  end.

(** Truth value of an object, as [not x] tests it. *)
Definition truthy (v : value) : bool :=
  match v with
  | VNone => false
  | VBool b => b
  | VInt z => negb (Z.eqb z 0)
  | VFloat (S754_zero _) => false
  | VFloat _ => true
  | VStr s => negb (String.eqb s "")
  | VList l => match l with [] => false | _ => true end
  | VDict d => match d with [] => false | _ => true end
  end.

(** [s.replace('Z', '+00:00')] *)
Fixpoint replace_Z (s : string) : string :=
  match s with
  | EmptyString => EmptyString
  | String c rest =>
      if Ascii.eqb c "Z"%char then "+00:00" ++ replace_Z rest
      else String c (replace_Z rest)
  end.

(** [str(x)], which is what an f-string field without a format spec shows. *)
Definition py_str (v : value) : string :=
  match v with
  | VNone => "None"
  | VBool true => "True"
  | VBool false => "False"
  | VInt z => NilZero.string_of_int (Z.to_int z)
  | VStr s => s
  | other => repr_other other
  end.

(** The body of the [try] of [_calculate_days_until_due]. *)
Definition days_until_due_try (due_date_str : value) : Clock (result Z) :=
  fun n =>
    match due_date_str with
    | VStr s =>
        match fromisoformat (replace_Z s) with
        | None => (Raise ValueError, n)
        | Some due_date =>
            let now := datetime_now n (tzinfo due_date) in
            match datetime_sub due_date now with
            | Ok delta => (Ok (timedelta_days delta), S n)
            | Raise e => (Raise e, S n)
            end
        end
    | _ => (Raise AttributeError, n)
    end.

Definition _calculate_days_until_due (due_date_str : value) : Clock (option Z) :=
  if negb (truthy due_date_str) then ret None
  else (r <- days_until_due_try due_date_str ;;
        match r with
        | Ok days => ret (Some days)
        | Raise _ => ret None
        end)%clock.

End Transformer.

(** ** The three exports *)

Section Exports.

Context {R : Runtime}.

Local Open Scope clock_scope.

(** The row of one assignment, given its computed days until due. *)
Definition sheet_row (assignment : dict) (days_until_due : option Z) : list value :=
  [ get assignment "assignment_id" (VStr "");
    get assignment "class_code" (VStr "");
    get assignment "class_name" (VStr "");
    get assignment "title" (VStr "");
    get assignment "type" (VStr "");
    get assignment "status" (VStr "");
    get assignment "assigned_date" (VStr "");
    get assignment "due_date" (VStr "");
    match days_until_due with Some days => VInt days | None => VNone end;
    get assignment "priority" (VStr "");
    get assignment "points_possible" (VStr "");
    get assignment "estimated_hours" (VStr "");
    get assignment "url" (VStr "") ].

(** The [for] loop of [transform_to_sheets_format]; [rows] is the list built
    so far. *)
Fixpoint sheets_loop (assignments : list dict) (rows : list value)
  : Clock (list value) :=
  match assignments with
  | [] => ret rows
  | assignment :: rest =>
      days <- _calculate_days_until_due (get assignment "due_date" VNone) ;;
      sheets_loop rest (rows ++ [VList (sheet_row assignment days)])
  end.

Definition transform_to_sheets_format (template : value) (assignments : list dict)
  : Clock (result value) :=
  rows <- sheets_loop assignments [] ;;
  ret (assign_at template [SKey "sheet_tabs"; SIdx 0] "rows" (VList rows)).

Definition notion_page (assignment : dict) : value :=
  VDict
    [ ("page_id", VStr ("page_" ++ py_str (get assignment "assignment_id" VNone)));
      ("properties", VDict
         [ ("Assignment ID", get assignment "assignment_id" (VStr ""));
           ("Title", get assignment "title" (VStr ""));
           ("Class", get assignment "class_code" (VStr ""));
           ("Type", get assignment "type" (VStr ""));
           ("Status", get assignment "status" (VStr ""));
           ("Priority", get assignment "priority" (VStr ""));
           ("Assigned Date", get assignment "assigned_date" (VStr ""));
           ("Due Date", get assignment "due_date" (VStr ""));
           ("Points", get assignment "points_possible" (VInt 0));
           ("Estimated Hours", get assignment "estimated_hours" (VInt 0));
           ("URL", get assignment "url" (VStr ""));
           ("Tags", VList []) ]);
      ("content", VList
         [ VDict [("type", VStr "heading_2"); ("text", VStr "Description")];
           VDict [("type", VStr "paragraph");
                  ("text", get assignment "description" (VStr ""))];
           VDict [("type", VStr "heading_2"); ("text", VStr "Checklist")];
           VDict [("type", VStr "to_do"); ("text", VStr "Complete assignment");
                  ("checked", VBool false)] ]) ].

(** The [for] loop of [transform_to_notion_format]. *)
Fixpoint notion_loop (assignments : list dict) (pages : list value) : list value :=
  match assignments with
  | [] => pages
  | assignment :: rest => notion_loop rest (pages ++ [notion_page assignment])
  end.

Definition transform_to_notion_format (template : value) (assignments : list dict)
  : Clock (result value) :=
  let pages := notion_loop assignments [] in
  ret (setitem template "pages" (VList pages)).

Definition todo_task (assignment : dict) : value :=
  VDict
    [ ("task_id", VStr ("task_" ++ py_str (get assignment "assignment_id" VNone)));
      ("title", VStr (py_str (get assignment "class_code" VNone) ++ ": "
                      ++ py_str (get assignment "title" VNone)));
      ("description", get assignment "description" (VStr ""));
      ("due_date", get assignment "due_date" (VStr ""));
      ("priority", get assignment "priority" (VStr "medium"));
      ("estimated_time",
        VStr (py_str (get assignment "estimated_hours" (VInt 0)) ++ " hours"));
      ("tags", VList [get assignment "type" (VStr "");
                      get assignment "class_code" (VStr "")]);
      ("url", get assignment "url" (VStr ""));
      ("checklist", VList
         [ VDict [("item", VStr "Start assignment"); ("completed", VBool false)];
           VDict [("item", VStr "Complete assignment"); ("completed", VBool false)];
           VDict [("item", VStr "Submit assignment"); ("completed", VBool false)] ]) ].

(** [x in ['critical', 'high']]: only a string compares equal to a string. *)
Definition in_critical_high (x : value) : bool :=
  match x with
  | VStr s => String.eqb s "critical" || String.eqb s "high"
  | _ => false
  end.

Record todo_lists : Type := mktodo {
  urgent_important : list value;
  important_not_urgent : list value;
  regular : list value
}.

(** The [for] loop of [transform_to_todo_format]. *)
Fixpoint todo_loop (assignments : list dict) (acc : todo_lists) : Clock todo_lists :=
  match assignments with
  | [] => ret acc
  | assignment :: rest =>
      let task := todo_task assignment in
      days_until_due <- _calculate_days_until_due (get assignment "due_date" VNone) ;;
      if match days_until_due with Some days => days <=? 3 | None => false end
      then todo_loop rest
             (mktodo (urgent_important acc ++ [task])
                     (important_not_urgent acc) (regular acc))
      else if in_critical_high (get assignment "priority" VNone)
      then todo_loop rest
             (mktodo (urgent_important acc)
                     (important_not_urgent acc ++ [task]) (regular acc))
      else todo_loop rest
             (mktodo (urgent_important acc)
                     (important_not_urgent acc) (regular acc ++ [task]))
  end.

Definition transform_to_todo_format (template : value) (assignments : list dict)
  : Clock (result value) :=
  lists <- todo_loop assignments (mktodo [] [] []) ;;
  ret (do t0 <- assign_at template [SKey "categories"; SIdx 0] "tasks"
                  (VList (urgent_important lists));
       do t1 <- assign_at t0 [SKey "categories"; SIdx 1] "tasks"
                  (VList (important_not_urgent lists));
       assign_at t1 [SKey "categories"; SIdx 2] "tasks"
                  (VList (regular lists)))%result.

(** The three transformations of [export_all_formats], in its order; each
    reads its own template, and an exception ends the run. *)
Definition export_all_formats
  (sheets_template notion_template todo_template : value) (assignments : list dict)
  : Clock (result (value * value * value)) :=
  sheets_data <- transform_to_sheets_format sheets_template assignments ;;
  match sheets_data with
  | Raise e => ret (Raise e)
  | Ok sheets =>
      notion_data <- transform_to_notion_format notion_template assignments ;;
      match notion_data with
      | Raise e => ret (Raise e)
      | Ok notion =>
          todo_data <- transform_to_todo_format todo_template assignments ;;
          match todo_data with
          | Raise e => ret (Raise e)
          | Ok todo => ret (Ok (sheets, notion, todo))
          end
      end
  end.

End Exports.

(** ** The scraper: platforms and the scraping stubs

    The scraper object holds the list [self.assignments]; the scraping
    methods report on standard output.  Both are the state of a second small
    monad, in which an exception ends the computation and leaves the state as
    it was when it was raised. *)

Record scraper : Type := mkscraper {
  self_assignments : list value;
  stdout : list string
}.

Definition Scrape (A : Type) : Type := scraper -> result A * scraper.

Definition sret {A : Type} (a : A) : Scrape A := fun st => (Ok a, st).

Definition sbind {A B : Type} (m : Scrape A) (k : A -> Scrape B) : Scrape B :=
  fun st =>
    match m st with
    | (Ok a, st') => k a st'
    | (Raise e, st') => (Raise e, st')
    end.

Declare Scope scrape_scope.
Delimit Scope scrape_scope with scrape.
Notation "x <~ m ;; k" := (sbind m (fun x => k))
  (at level 100, m at next level, right associativity) : scrape_scope.

(** An expression that may raise, evaluated without touching the state. *)
Definition lift {A : Type} (r : result A) : Scrape A := fun st => (r, st).

(** [print(line)] *)
Definition print (line : string) : Scrape unit :=
  fun st => (Ok tt, mkscraper (self_assignments st) (stdout st ++ [line])).

(** [self.assignments.extend(more)] *)
Definition extend (more : list value) : Scrape unit :=
  fun st => (Ok tt, mkscraper (self_assignments st ++ more) (stdout st)).

(** [obj.get(k, default)]: only a dictionary has the method. *)
Definition py_get (obj : value) (k : string) (default : value) : result value :=
  match obj with
  | VDict d => Ok (get d k default)
  | _ => Raise AttributeError
  end.

(** [x == 'literal'] *)
Definition eq_str (x : value) (literal : string) : bool :=
  match x with
  | VStr s => String.eqb s literal
  | _ => false
  end.

(** The items a [for] loop takes from an object: the elements of a list,
    the keys of a dictionary, the characters of a string; nothing else of
    JSON is iterable. *)
Definition iterate (obj : value) : result (list value) :=
  match obj with
  | VList l => Ok l
  | VDict d => Ok (map (fun kv => VStr (fst kv)) d)
  | VStr s => Ok (map (fun c => VStr (String c EmptyString)) (list_ascii_of_string s))
  | _ => Raise TypeError
  end.

(** [load_platforms], after the file is read: [data['platforms']]. *)
Definition load_platforms (data : value) : result value :=
  getitem data (SKey "platforms").

Section Scraper.

Context {R : Runtime}.

Local Open Scope scrape_scope.

Definition scrape_canvas (platform : value) : Scrape (list value) :=
  base_url <~ lift (getitem platform (SKey "base_url")) ;;
  _ <~ print ("Scraping Canvas at " ++ py_str base_url) ;;
  sret [].

Definition scrape_moodle (platform : value) : Scrape (list value) :=
  base_url <~ lift (getitem platform (SKey "base_url")) ;;
  _ <~ print ("Scraping Moodle at " ++ py_str base_url) ;;
  sret [].

Definition scrape_blackboard (platform : value) : Scrape (list value) :=
  base_url <~ lift (getitem platform (SKey "base_url")) ;;
  _ <~ print ("Scraping Blackboard at " ++ py_str base_url) ;;
  sret [].

Definition scrape_platform (platform : value) : Scrape (list value) :=
  platform_type <~ lift (getitem platform (SKey "platform_type")) ;;
  enabled <~ lift (py_get platform "enabled" (VBool true)) ;;
  if negb (truthy enabled) then
    (_ <~ print ("Skipping disabled platform: " ++ py_str platform_type) ;;
     sret [])
  else if eq_str platform_type "Canvas" then scrape_canvas platform
  else if eq_str platform_type "Moodle" then scrape_moodle platform
  else if eq_str platform_type "Blackboard" then scrape_blackboard platform
  else
    (_ <~ print ("Unknown platform type: " ++ py_str platform_type) ;;
     sret []).

(** The [for] loop of [scrape_all]. *)
Fixpoint scrape_each (platforms : list value) : Scrape unit :=
  match platforms with
  | [] => sret tt
  | platform_config :: rest =>
      assignments <~ scrape_platform platform_config ;;
      _ <~ extend assignments ;;
      scrape_each rest
  end.

(** [scrape_all] over the document read from the platforms file. *)
Definition scrape_all (data : value) : Scrape (list value) :=
  platforms <~ lift (load_platforms data) ;;
  items <~ lift (iterate platforms) ;;
  _ <~ scrape_each items ;;
  fun st =>
    (_ <~ print ("Total assignments scraped: "
                 ++ py_str (VInt (Z.of_nat (List.length (self_assignments st))))) ;;
     fun st' => (Ok (self_assignments st'), st')) st.

End Scraper.

(** ** A reference runtime

    [datetime.fromisoformat] for the format its documentation gives,
    [YYYY-MM-DD[*HH[:MM[:SS[.fff[fff]]]][+HH:MM[:SS[.ffffff]]]]], with the
    range checks of the [datetime] and [timezone] constructors and the
    proleptic Gregorian day count of [datetime.toordinal]. *)

Definition digit_of (c : ascii) : option Z :=
  let n := Z.of_nat (nat_of_ascii c) in
  if (48 <=? n) && (n <=? 57) then Some (n - 48) else None.

(** Exactly [k] decimal digits at the head of [l]. *)
Fixpoint take_digits (k : nat) (acc : Z) (l : list ascii) : option (Z * list ascii) :=
  match k with
  | O => Some (acc, l)
  | S k' =>
      match l with
      | c :: rest =>
          match digit_of c with
          | Some d => take_digits k' (10 * acc + d) rest
          | None => None
          end
      | [] => None
      end
  end.

Definition is_leap (year : Z) : bool :=
  (year mod 4 =? 0) && (negb (year mod 100 =? 0) || (year mod 400 =? 0)).

Definition days_in_month (year month : Z) : Z :=
  if month =? 2 then (if is_leap year then 29 else 28)
  else if (month =? 4) || (month =? 6) || (month =? 9) || (month =? 11) then 30
  else 31.

Definition days_before_year (year : Z) : Z :=
  let y := year - 1 in y * 365 + y / 4 - y / 100 + y / 400.

Definition days_before_month (year month : Z) : Z :=
  nth (Z.to_nat (month - 1)) [0; 31; 59; 90; 120; 151; 181; 212; 243; 273; 304; 334] 0
  + (if (2 <? month) && is_leap year then 1 else 0).

Definition ymd2ord (year month day : Z) : Z :=
  days_before_year year + days_before_month year month + day.

(** [YYYY-MM-DD] at the head of [l]; the result is the ordinal of the day. *)
Definition parse_isoformat_date (l : list ascii) : option (Z * list ascii) :=
  match take_digits 4 0 l with
  | Some (year, "-"%char :: l1) =>
      match take_digits 2 0 l1 with
      | Some (month, "-"%char :: l2) =>
          match take_digits 2 0 l2 with
          | Some (day, l3) =>
              if (1 <=? year) && (1 <=? month) && (month <=? 12)
                 && (1 <=? day) && (day <=? days_in_month year month)
              then Some (ymd2ord year month day, l3)
              else None
          | None => None
          end
      | _ => None
      end
  | _ => None
  end.

(** [.fff[fff]] to the end of the text. *)
Definition parse_fraction (l : list ascii) : option Z :=
  match l with
  | "."%char :: digits =>
      match List.length digits with
      | 3%nat =>
          match take_digits 3 0 digits with
          | Some (ms, _) => Some (ms * 1000)
          | None => None
          end
      | 6%nat =>
          match take_digits 6 0 digits with
          | Some (us, _) => Some us
          | None => None
          end
      | _ => None
      end
  | _ => None
  end.

(** [HH[:MM[:SS[.fff[fff]]]]] over the whole of [l]: hours, minutes, seconds
    and microseconds. *)
Definition parse_hh_mm_ss_ff (l : list ascii) : option (Z * Z * Z * Z) :=
  match take_digits 2 0 l with
  | Some (hh, []) => Some (hh, 0, 0, 0)
  | Some (hh, ":"%char :: l1) =>
      match take_digits 2 0 l1 with
      | Some (mm, []) => Some (hh, mm, 0, 0)
      | Some (mm, ":"%char :: l2) =>
          match take_digits 2 0 l2 with
          | Some (ss, []) => Some (hh, mm, ss, 0)
          | Some (ss, l3) =>
              match parse_fraction l3 with
              | Some ff => Some (hh, mm, ss, ff)
              | None => None
              end
          | None => None
          end
      | _ => None
      end
  | _ => None
  end.

(** The text before the first sign, and the sign with the text after it. *)
Fixpoint split_at_sign (l : list ascii) : list ascii * option (bool * list ascii) :=
  match l with
  | [] => ([], None)
  | c :: rest =>
      if Ascii.eqb c "+"%char then ([], Some (false, rest))
      else if Ascii.eqb c "-"%char then ([], Some (true, rest))
      else let (t, z) := split_at_sign rest in (c :: t, z)
  end.

Definition us_of_hms (hh mm ss ff : Z) : Z :=
  ((hh * 3600 + mm * 60 + ss) * 1000000) + ff.

(** The time of day in microseconds and the UTC offset, if any. *)
Definition parse_isoformat_time (l : list ascii) : option (Z * option Z) :=
  let (tstr, tz) := split_at_sign l in
  match parse_hh_mm_ss_ff tstr with
  | Some (hh, mm, ss, ff) =>
      if (hh <? 24) && (mm <? 60) && (ss <? 60) then
        match tz with
        | None => Some (us_of_hms hh mm ss ff, None)
        | Some (negative, tzstr) =>
            match List.length tzstr with
            | 5%nat | 8%nat | 15%nat =>
                match parse_hh_mm_ss_ff tzstr with
                | Some (zh, zm, zs, zf) =>
                    let off := us_of_hms zh zm zs zf in
                    if off <? us_per_day
                    then Some (us_of_hms hh mm ss ff,
                               Some (if negative then - off else off))
                    else None
                | None => None
                end
            | _ => None
            end
        end
      else None
  | None => None
  end.

Definition iso_fromisoformat (date_string : string) : option datetime :=
  match parse_isoformat_date (list_ascii_of_string date_string) with
  | Some (ord, []) => Some (mkdatetime ((ord - 1) * us_per_day) None)
  | Some (ord, _ :: tstr) =>
      match parse_isoformat_time tstr with
      | Some (t, tz) => Some (mkdatetime ((ord - 1) * us_per_day + t) tz)
      | None => None
      end
  | None => None
  end.

(** The reference runtime over a given clock; the machine's zone is UTC. *)
Definition reference_runtime (repr : value -> string) (ticks : nat -> Z) : Runtime :=
  {| repr_other := repr;
     fromisoformat := iso_fromisoformat;
     clock := ticks;
     localtime := fun utc => utc |}.

(** ** Reading the outputs

    Definitions used to state the properties: they are not part of the
    program. *)

(** [obj[p1]...[pn]] *)
Fixpoint read_at (obj : value) (path : list subscript) : result value :=
  match path with
  | [] => Ok obj
  | sub :: rest => (do child <- getitem obj sub; read_at child rest)%result
  end.

(** The keys of a dictionary, in their order. *)
Definition keys (d : dict) : list string := map fst d.

(** A field of a record built by the transformer. *)
Definition field (record : value) (k : string) : option value :=
  match record with
  | VDict d => lookup k d
  | _ => None
  end.

(** The three buckets of the to-do export, in the order of the template's
    categories 0, 1 and 2. *)
Inductive bucket : Type := Urgent | Important | Regular.

Definition bucket_eqb (a b : bucket) : bool :=
  match a, b with
  | Urgent, Urgent | Important, Important | Regular, Regular => true
  | _, _ => false
  end.

Definition bucket_list (b : bucket) (lists : todo_lists) : list value :=
  match b with
  | Urgent => urgent_important lists
  | Important => important_not_urgent lists
  | Regular => regular lists
  end.

(** Appending a task to one bucket. *)
Definition add_task (b : bucket) (task : value) (lists : todo_lists) : todo_lists :=
  match b with
  | Urgent =>
      mktodo (urgent_important lists ++ [task]) (important_not_urgent lists)
             (regular lists)
  | Important =>
      mktodo (urgent_important lists) (important_not_urgent lists ++ [task])
             (regular lists)
  | Regular =>
      mktodo (urgent_important lists) (important_not_urgent lists)
             (regular lists ++ [task])
  end.

(** The categorisation rule in the specification's words: urgent when the
    days until due are known and at most 3, otherwise important when the
    priority is critical or high, otherwise regular. *)
Definition bucket_rule (days : option Z) (priority : value) : bucket :=
  match days with
  | Some d =>
      if d <=? 3 then Urgent
      else if in_critical_high priority then Important else Regular
  | None => if in_critical_high priority then Important else Regular
  end.

(** The assignments of [assignments] labelled [b], in their order. *)
Definition select (b : bucket) (labels : list bucket) (assignments : list dict)
  : list dict :=
  map snd (filter (fun p => bucket_eqb (fst p) b) (combine labels assignments)).

Section Traces.

Context {R : Runtime}.

Local Open Scope clock_scope.

(** The days until due of each assignment in turn, every one computed at
    the clock reading reached after the ones before it. *)
Fixpoint days_trace (assignments : list dict) : Clock (list (option Z)) :=
  match assignments with
  | [] => ret []
  | assignment :: rest =>
      days <- _calculate_days_until_due (get assignment "due_date" VNone) ;;
      others <- days_trace rest ;;
      ret (days :: others)
  end.

(** The bucket the rule gives each assignment in turn. *)
Definition labels_of (assignments : list dict) (n : nat) : list bucket :=
  map (fun p => bucket_rule (snd p) (get (fst p) "priority" VNone))
      (combine assignments (fst (days_trace assignments n))).

End Traces.

(** The three categories of the to-do template after the three
    assignments. *)
Definition filled_categories (l : list value) (c0 c1 c2 : dict) (u i r : value)
  : list value :=
  list_put
    (list_put (list_put l 0 (VDict (dict_set c0 "tasks" u)))
              1 (VDict (dict_set c1 "tasks" i)))
    2 (VDict (dict_set c2 "tasks" r)).

(** The columns of a row, under the names of the fields they show;
    [days_until_due] is computed, the others are read from the assignment. *)
Definition sheet_columns : list string :=
  [ "assignment_id"; "class_code"; "class_name"; "title"; "type"; "status";
    "assigned_date"; "due_date"; "days_until_due"; "priority";
    "points_possible"; "estimated_hours"; "url" ].

Definition column_value (assignment : dict) (days : option Z) (column : string)
  : value :=
  if String.eqb column "days_until_due"
  then match days with Some d => VInt d | None => VNone end
  else get assignment column (VStr "").

(** The properties of a page that show a field of the assignment: the
    property, the field, and what the property is when the field is
    absent. *)
Definition notion_properties : list (string * string * value) :=
  [ ("Assignment ID", "assignment_id", VStr "");
    ("Title", "title", VStr "");
    ("Class", "class_code", VStr "");
    ("Type", "type", VStr "");
    ("Status", "status", VStr "");
    ("Priority", "priority", VStr "");
    ("Assigned Date", "assigned_date", VStr "");
    ("Due Date", "due_date", VStr "");
    ("Points", "points_possible", VInt 0);
    ("Estimated Hours", "estimated_hours", VInt 0);
    ("URL", "url", VStr "") ].

(** The content blocks of a page over a description text. *)
Definition notion_content (description : value) : value :=
  VList
    [ VDict [("type", VStr "heading_2"); ("text", VStr "Description")];
      VDict [("type", VStr "paragraph"); ("text", description)];
      VDict [("type", VStr "heading_2"); ("text", VStr "Checklist")];
      VDict [("type", VStr "to_do"); ("text", VStr "Complete assignment");
             ("checked", VBool false)] ].

(** The fields of a task that show a field of the assignment as it is: the
    field of the task, the field of the assignment, and what the task has
    when the assignment lacks it. *)
Definition todo_fields : list (string * string * value) :=
  [ ("description", "description", VStr "");
    ("due_date", "due_date", VStr "");
    ("priority", "priority", VStr "medium");
    ("url", "url", VStr "") ].

(** A field of a record is the empty string or the number zero. *)
Definition empty_or_zero (record : value) (k : string) : Prop :=
  field record k = Some (VStr "") \/ field record k = Some (VInt 0).

(** [d'] is [d] with the value of the key [k] replaced, or with the key
    added at the end when [d] lacks it; all other entries are the same, in
    the same places. *)
Inductive dict_frame (k : string) : dict -> dict -> Prop :=
| frame_replace (before : dict) (old new : value) (after : dict) :
    dict_frame k (before ++ (k, old) :: after)%list
                 (before ++ (k, new) :: after)%list
| frame_add (d : dict) (new : value) :
    lookup k d = None -> dict_frame k d (d ++ [(k, new)])%list.

(** The template has the elements the export indexes: the first [count]
    elements of the list under [key]. *)
Definition has_elements (template : value) (key : string) (count : nat) : Prop :=
  exists d l,
    template = VDict d /\ lookup key d = Some (VList l) /\
    (count <= List.length l)%nat.

(** The same, and each of those elements is an object. *)
Definition has_objects (template : value) (key : string) (count : nat) : Prop :=
  exists d l,
    template = VDict d /\ lookup key d = Some (VList l) /\
    (count <= List.length l)%nat /\
    forall i, (i < count)%nat -> exists c, nth_error l i = Some (VDict c).

(** A platform type that has a scraping stub. *)
Definition known_platform (platform_type : value) : bool :=
  eq_str platform_type "Canvas" || eq_str platform_type "Moodle"
  || eq_str platform_type "Blackboard".

(** What [scrape_platform] needs of a platform: it is an object with a
    [platform_type], and with a [base_url] when it is enabled and of a known
    type. *)
Definition platform_ok (platform : value) : Prop :=
  exists d t,
    platform = VDict d /\ lookup "platform_type" d = Some t /\
    (truthy (get d "enabled" (VBool true)) = true ->
     known_platform t = true -> exists u, lookup "base_url" d = Some u).

Section DueDates.

Context {R : Runtime}.

(** The due date of the assignment is a non-empty string that
    [fromisoformat] accepts once its Zs are replaced. *)
Definition due_date_parses (assignment : dict) : bool :=
  match get assignment "due_date" VNone with
  | VStr s =>
      negb (String.eqb s "")
      && match fromisoformat (replace_Z s) with Some _ => true | None => false end
  | _ => false
  end.

(** The number of assignments whose due date parses. *)
Definition parsed_due_dates (assignments : list dict) : nat :=
  List.length (filter due_date_parses assignments).

End DueDates.

(** The three task lists are what the categories 0, 1 and 2 of a to-do
    document hold. *)
Definition holds_tasks (out : value) (lists : todo_lists) : Prop :=
  read_at out [SKey "categories"; SIdx 0; SKey "tasks"]
    = Ok (VList (urgent_important lists)) /\
  read_at out [SKey "categories"; SIdx 1; SKey "tasks"]
    = Ok (VList (important_not_urgent lists)) /\
  read_at out [SKey "categories"; SIdx 2; SKey "tasks"]
    = Ok (VList (regular lists)).

(** The days until due are known and at most 3. *)
Definition at_most_3 (days : option Z) : bool :=
  match days with Some d => d <=? 3 | None => false end.

(** ** Example documents *)

(** A runtime for running examples: the clock stands still at [now], and
    [str] of a float or a container, which no example formats, is a
    placeholder. *)
Definition frozen_runtime (now : Z) : Runtime :=
  reference_runtime (fun _ => "<object>") (fun _ => now).

(** 2024-01-01T00:00:00 UTC, in microseconds since 0001-01-01. *)
Definition new_year_2024 : Z := (ymd2ord 2024 1 1 - 1) * us_per_day.

(** A to-do template with its three categories and other content. *)
Definition todo_template_example : value :=
  VDict
    [ ("list_name", VStr "Assignments");
      ("categories", VList
         [ VDict [("name", VStr "Urgent & Important"); ("tasks", VList [])];
           VDict [("name", VStr "Important, Not Urgent"); ("tasks", VList [])];
           VDict [("name", VStr "Regular"); ("tasks", VList [])];
           VDict [("name", VStr "Someday")] ]);
      ("version", VInt 1) ].

Definition assignments_example : list dict :=
  [ [("assignment_id", VStr "A1"); ("class_code", VStr "CS101");
     ("title", VStr "Lab 1"); ("due_date", VStr "2024-01-02T12:00:00Z");
     ("priority", VStr "low")];
    [("assignment_id", VStr "A2"); ("class_code", VStr "MATH201");
     ("title", VStr "Problem set"); ("due_date", VStr "2024-01-31T00:00:00Z");
     ("priority", VStr "critical"); ("points_possible", VInt 100)];
    [("assignment_id", VStr "A3"); ("due_date", VStr "not-a-date")];
    [("assignment_id", VStr "A4"); ("due_date", VStr "2023-12-25T08:00:00+02:00");
     ("priority", VStr "medium")] ].

(** A sheets template with two tabs and other content. *)
Definition sheets_template_example : value :=
  VDict
    [ ("spreadsheet_name", VStr "Assignment Tracker");
      ("sheet_tabs", VList
         [ VDict [("tab_name", VStr "All Assignments");
                  ("columns", VList [VStr "ID"; VStr "Class"]);
                  ("rows", VList [VList [VStr "sample"]])];
           VDict [("tab_name", VStr "Summary"); ("rows", VList [])] ]) ].

(** A notion template with a sample page and other content. *)
Definition notion_template_example : value :=
  VDict
    [ ("database_name", VStr "Assignments");
      ("pages", VList [VDict [("page_id", VStr "page_sample")]]);
      ("views", VList [VStr "Calendar"; VStr "Board"]) ].

(** A clock that moves: one day passes between two readings.  The same
    assignment is then 4 days out at the first reading and 3 at the
    second. *)
Definition daily_runtime : Runtime :=
  reference_runtime (fun _ => "<object>")
    (fun i => new_year_2024 + Z.of_nat i * us_per_day).

(** Platforms: an enabled one of a known type, a disabled one that has no
    address, and one of a type without a stub. *)
Definition canvas_example : value :=
  VDict [("platform_type", VStr "Canvas");
         ("base_url", VStr "https://canvas.example.edu"); ("enabled", VBool true)].

Definition moodle_disabled_example : value :=
  VDict [("platform_type", VStr "Moodle"); ("enabled", VBool false)].

Definition other_platform_example : value :=
  VDict [("platform_type", VStr "Brightspace")].

(** An enabled platform of a known type that lacks its address. *)
Definition blackboard_without_url_example : value :=
  VDict [("platform_type", VStr "Blackboard"); ("enabled", VBool true)].

Definition platforms_example : value :=
  VDict [("platforms",
          VList [canvas_example; moodle_disabled_example; other_platform_example])].

Definition platforms_with_bad_example : value :=
  VDict [("platforms",
          VList [canvas_example; blackboard_without_url_example;
                 other_platform_example])].

(** ** Dictionaries and lists *)

Lemma lookup_dict_set_same (d : dict) (k : string) (v : value) :
  lookup k (dict_set d k v) = Some v.
Proof.
  induction d as [|[k' v'] rest IH]; simpl.
  - now rewrite String.eqb_refl.
  - destruct (String.eqb k k') eqn:E; simpl; rewrite E; auto.
Qed.

Lemma lookup_dict_set_other (d : dict) (k k' : string) (v : value) :
  k' <> k -> lookup k' (dict_set d k v) = lookup k' d.
Proof.
  intros Hne.
  induction d as [|[k0 v0] rest IH]; simpl.
  - destruct (String.eqb k' k) eqn:E; auto.
    apply String.eqb_eq in E. contradiction.
  - destruct (String.eqb k k0) eqn:E; simpl.
    + apply String.eqb_eq in E. subst k0.
      destruct (String.eqb k' k) eqn:E'; auto.
      apply String.eqb_eq in E'. contradiction.
    + now rewrite IH.
Qed.

Lemma keys_dict_set_present (d : dict) (k : string) (v x : value) :
  lookup k d = Some x -> keys (dict_set d k v) = keys d.
Proof.
  unfold keys.
  induction d as [|[k' v'] rest IH]; simpl; [discriminate|].
  destruct (String.eqb k k') eqn:E; simpl; intros H; auto.
  f_equal. auto.
Qed.

Lemma dict_set_twice (d : dict) (k : string) (v w : value) :
  dict_set (dict_set d k v) k w = dict_set d k w.
Proof.
  induction d as [|[k' v'] rest IH]; simpl.
  - now rewrite String.eqb_refl.
  - destruct (String.eqb k k') eqn:E; simpl; rewrite E; auto.
    now rewrite IH.
Qed.

Lemma nth_list_put_same (l : list value) (i : nat) (v x : value) :
  nth_error l i = Some x -> nth_error (list_put l i v) i = Some v.
Proof.
  revert i. induction l as [|y rest IH]; intros [|j]; simpl; try discriminate; auto.
Qed.

Lemma nth_list_put_other (l : list value) (i j : nat) (v : value) :
  j <> i -> nth_error (list_put l i v) j = nth_error l j.
Proof.
  revert i j. induction l as [|y rest IH]; intros [|i] [|j] Hne; simpl; auto.
  - contradiction.
Qed.

(** ** Assigning into a template *)

Lemma assign_at_str_raises (path : list subscript) :
  forall (s k : string) (v : value), exists e, assign_at (VStr s) path k v = Raise e.
Proof.
  induction path as [|sub rest IH]; intros s k v; simpl.
  - now exists TypeError.
  - destruct sub as [key|i]; simpl.
    + now exists TypeError.
    + destruct (String.get i s) as [c|]; simpl.
      * destruct (IH (String c EmptyString) k v) as [e He].
        rewrite He. now exists e.
      * now exists IndexError.
Qed.

(** A slot two levels down, [template[K][i][k] = v], is assigned exactly in
    a dictionary whose [K] is a list whose element [i] is a dictionary. *)
Lemma assign_slot_ok (template : value) (K : string) (i : nat) (k : string)
  (v out : value) :
  assign_at template [SKey K; SIdx i] k v = Ok out <->
  exists d l c,
    template = VDict d /\ lookup K d = Some (VList l) /\
    nth_error l i = Some (VDict c) /\
    out = VDict (dict_set d K (VList (list_put l i (VDict (dict_set c k v))))).
Proof.
  split.
  - simpl. destruct template as [| | | | |l|d]; simpl; try discriminate.
    destruct (lookup K d) as [tabs|] eqn:HK; simpl; [|discriminate].
    destruct tabs as [| | | |s|l|d']; simpl; try discriminate.
    + destruct (String.get i s); simpl; discriminate.
    + destruct (nth_error l i) as [c|] eqn:Hi; simpl; [|discriminate].
      destruct c; simpl; try discriminate.
      intros H. injection H as <-. eauto 8.
  - intros (d & l & c & -> & HK & Hi & ->). simpl.
    rewrite HK. simpl. rewrite Hi. reflexivity.
Qed.

Lemma assign_slot_no_key (d : dict) (K : string) (i : nat) (k : string) (v : value) :
  lookup K d = None -> assign_at (VDict d) [SKey K; SIdx i] k v = Raise KeyError.
Proof. intros H. simpl. now rewrite H. Qed.

Lemma assign_slot_short (d : dict) (K : string) (l : list value) (i : nat)
  (k : string) (v : value) :
  lookup K d = Some (VList l) -> nth_error l i = None ->
  assign_at (VDict d) [SKey K; SIdx i] k v = Raise IndexError.
Proof. intros HK Hi. simpl. rewrite HK. simpl. now rewrite Hi. Qed.

Lemma assign_slot_not_dict (d : dict) (K : string) (l : list value) (i : nat)
  (x : value) (k : string) (v : value) :
  lookup K d = Some (VList l) -> nth_error l i = Some x ->
  (forall c, x <> VDict c) ->
  assign_at (VDict d) [SKey K; SIdx i] k v = Raise TypeError.
Proof.
  intros HK Hi Hx. simpl. rewrite HK. simpl. rewrite Hi. simpl.
  destruct x; try reflexivity. now destruct (Hx d0).
Qed.

Lemma assign_three_slots_ok (template u i r out : value) :
  (do t0 <- assign_at template [SKey "categories"; SIdx 0] "tasks" u;
   do t1 <- assign_at t0 [SKey "categories"; SIdx 1] "tasks" i;
   assign_at t1 [SKey "categories"; SIdx 2] "tasks" r)%result = Ok out <->
  exists d l c0 c1 c2,
    template = VDict d /\ lookup "categories" d = Some (VList l) /\
    nth_error l 0 = Some (VDict c0) /\ nth_error l 1 = Some (VDict c1) /\
    nth_error l 2 = Some (VDict c2) /\
    out = VDict (dict_set d "categories" (VList (filled_categories l c0 c1 c2 u i r))).
Proof.
  unfold rbind. split.
  - destruct (assign_at template _ "tasks" u) as [t0|] eqn:H0; [|discriminate].
    destruct (assign_at t0 _ "tasks" i) as [t1|] eqn:H1; [|discriminate].
    intros H2.
    apply assign_slot_ok in H0. destruct H0 as (d & l & c0 & -> & HK & Hc0 & ->).
    apply assign_slot_ok in H1. destruct H1 as (d1 & l1 & c1 & E1 & HK1 & Hc1 & ->).
    injection E1 as <-. rewrite lookup_dict_set_same in HK1. injection HK1 as <-.
    apply assign_slot_ok in H2. destruct H2 as (d2 & l2 & c2 & E2 & HK2 & Hc2 & ->).
    injection E2 as <-. rewrite lookup_dict_set_same in HK2. injection HK2 as <-.
    rewrite nth_list_put_other in Hc1 by lia.
    rewrite !nth_list_put_other in Hc2 by lia.
    exists d, l, c0, c1, c2. repeat split; auto.
    now rewrite !dict_set_twice.
  - intros (d & l & c0 & c1 & c2 & -> & HK & H0 & H1 & H2 & ->).
    assert (E0 : assign_at (VDict d) [SKey "categories"; SIdx 0] "tasks" u
                 = Ok (VDict (dict_set d "categories"
                         (VList (list_put l 0 (VDict (dict_set c0 "tasks" u))))))).
    { apply assign_slot_ok. eauto 8. }
    rewrite E0.
    assert (E1 : assign_at (VDict (dict_set d "categories"
                         (VList (list_put l 0 (VDict (dict_set c0 "tasks" u))))))
                   [SKey "categories"; SIdx 1] "tasks" i
                 = Ok (VDict (dict_set d "categories"
                         (VList (list_put (list_put l 0 (VDict (dict_set c0 "tasks" u)))
                                          1 (VDict (dict_set c1 "tasks" i))))))).
    { apply assign_slot_ok. eexists _, _, c1. repeat split.
      - apply lookup_dict_set_same.
      - now rewrite nth_list_put_other by lia.
      - now rewrite dict_set_twice. }
    rewrite E1.
    apply assign_slot_ok. eexists _, _, c2. repeat split.
    + apply lookup_dict_set_same.
    + now rewrite !nth_list_put_other by lia.
    + now rewrite dict_set_twice.
Qed.

(** Reading a slot back from the filled template. *)
Lemma read_slot (d : dict) (K : string) (l : list value) (i : nat) (c : dict)
  (k : string) :
  nth_error l i = Some (VDict c) ->
  read_at (VDict (dict_set d K (VList l))) [SKey K; SIdx i; SKey k]
  = match lookup k c with Some v => Ok v | None => Raise KeyError end.
Proof.
  intros Hi. simpl. rewrite lookup_dict_set_same. simpl. rewrite Hi. simpl.
  destruct (lookup k c); reflexivity.
Qed.

(** ** Days until due and the loops *)

Section Loops.

Context {R : Runtime}.

Lemma datetime_sub_now (d : datetime) (n : nat) :
  datetime_sub d (datetime_now n (tzinfo d))
  = Ok (wall d - wall (datetime_now n (tzinfo d))).
Proof.
  unfold datetime_sub, datetime_now.
  destruct (tzinfo d) as [off|]; simpl; auto.
  now rewrite Z.eqb_refl.
Qed.

Lemma days_of_parsed (s : string) (d : datetime) (n : nat) :
  s <> "" -> fromisoformat (replace_Z s) = Some d ->
  _calculate_days_until_due (VStr s) n
  = (Some (timedelta_days (wall d - wall (datetime_now n (tzinfo d)))), S n).
Proof.
  intros Hs Hd. unfold _calculate_days_until_due. simpl.
  destruct (String.eqb s "") eqn:E.
  - apply String.eqb_eq in E. contradiction.
  - simpl. unfold bind, days_until_due_try. rewrite Hd, datetime_sub_now.
    reflexivity.
Qed.

Lemma length_days_trace (assignments : list dict) :
  forall n, List.length (fst (days_trace assignments n)) = List.length assignments.
Proof.
  induction assignments as [|a rest IH]; intros n; simpl; auto.
  unfold bind.
  destruct (_calculate_days_until_due (get a "due_date" VNone) n) as [days n1].
  specialize (IH n1). destruct (days_trace rest n1) as [others n2].
  simpl in *. now rewrite IH.
Qed.

Lemma days_trace_cons (a : dict) (rest : list dict) (n : nat) :
  days_trace (a :: rest) n =
  let (days, n1) := _calculate_days_until_due (get a "due_date" VNone) n in
  (days :: fst (days_trace rest n1), snd (days_trace rest n1)).
Proof.
  simpl. unfold bind.
  destruct (_calculate_days_until_due (get a "due_date" VNone) n) as [days n1].
  now destruct (days_trace rest n1).
Qed.

Lemma length_labels_of (assignments : list dict) (n : nat) :
  List.length (labels_of assignments n) = List.length assignments.
Proof.
  unfold labels_of.
  rewrite length_map, length_combine, length_days_trace. lia.
Qed.

Lemma labels_of_cons (a : dict) (rest : list dict) (n : nat) :
  labels_of (a :: rest) n =
  let (days, n1) := _calculate_days_until_due (get a "due_date" VNone) n in
  bucket_rule days (get a "priority" VNone) :: labels_of rest n1.
Proof.
  unfold labels_of. rewrite days_trace_cons.
  now destruct (_calculate_days_until_due (get a "due_date" VNone) n).
Qed.

(** The rows are those of the assignments in turn, after the rows already
    there. *)
Lemma sheets_loop_rows (assignments : list dict) :
  forall rows n,
    sheets_loop assignments rows n =
    ((rows ++ map (fun p => VList (sheet_row (fst p) (snd p)))
                  (combine assignments (fst (days_trace assignments n))))%list,
     snd (days_trace assignments n)).
Proof.
  induction assignments as [|a rest IH]; intros rows n.
  - simpl. unfold ret. now rewrite app_nil_r.
  - rewrite days_trace_cons. simpl. unfold bind.
    destruct (_calculate_days_until_due (get a "due_date" VNone) n) as [days n1].
    rewrite IH. simpl. now rewrite <- app_assoc.
Qed.

Lemma notion_loop_pages (assignments : list dict) :
  forall pages,
    notion_loop assignments pages = (pages ++ map notion_page assignments)%list.
Proof.
  induction assignments as [|a rest IH]; intros pages; simpl.
  - now rewrite app_nil_r.
  - rewrite IH. now rewrite <- app_assoc.
Qed.

Lemma select_cons (b b' : bucket) (labels : list bucket) (a : dict)
  (rest : list dict) :
  select b (b' :: labels) (a :: rest) =
  if bucket_eqb b' b then a :: select b labels rest else select b labels rest.
Proof. unfold select. simpl. now destruct (bucket_eqb b' b). Qed.

(** One turn of the loop of the to-do export applies the rule. *)
Lemma todo_loop_cons (a : dict) (rest : list dict) (acc : todo_lists) (n : nat) :
  todo_loop (a :: rest) acc n =
  let (days, n1) := _calculate_days_until_due (get a "due_date" VNone) n in
  todo_loop rest
    (add_task (bucket_rule days (get a "priority" VNone)) (todo_task a) acc) n1.
Proof.
  simpl. unfold bind.
  destruct (_calculate_days_until_due (get a "due_date" VNone) n) as [[d|] n1];
    unfold bucket_rule.
  - destruct (d <=? 3); [reflexivity|].
    now destruct (in_critical_high (get a "priority" VNone)).
  - now destruct (in_critical_high (get a "priority" VNone)).
Qed.

(** Every bucket holds the tasks of the assignments the rule sends to it,
    in their order, after the tasks already there. *)
Lemma todo_loop_lists (assignments : list dict) :
  forall acc n,
    todo_loop assignments acc n =
    (mktodo
       (urgent_important acc
          ++ map todo_task (select Urgent (labels_of assignments n) assignments))
       (important_not_urgent acc
          ++ map todo_task (select Important (labels_of assignments n) assignments))
       (regular acc
          ++ map todo_task (select Regular (labels_of assignments n) assignments)),
     snd (days_trace assignments n))%list.
Proof.
  induction assignments as [|a rest IH]; intros acc n.
  - simpl. unfold ret, select. simpl. rewrite !app_nil_r. now destruct acc.
  - rewrite todo_loop_cons, labels_of_cons, days_trace_cons.
    destruct (_calculate_days_until_due (get a "due_date" VNone) n) as [days n1].
    rewrite IH. rewrite !select_cons.
    destruct (bucket_rule days (get a "priority" VNone)); simpl;
      now rewrite <- ?app_assoc.
Qed.

Lemma select_partition (labels : list bucket) :
  forall assignments,
    List.length labels = List.length assignments ->
    Permutation
      (select Urgent labels assignments ++ select Important labels assignments
         ++ select Regular labels assignments)%list
      assignments.
Proof.
  induction labels as [|b labels IH]; intros [|a rest] Hlen; simpl in Hlen;
    try discriminate.
  - constructor.
  - injection Hlen as Hlen. specialize (IH rest Hlen).
    rewrite !select_cons. destruct b; simpl.
    + now constructor.
    + symmetry. apply Permutation_cons_app. now symmetry.
    + symmetry. rewrite app_assoc. apply Permutation_cons_app.
      rewrite <- app_assoc. now symmetry.
Qed.

End Loops.

(** ** The to-do export: categorisation *)

Section Categorisation.

Context {R : Runtime}.

Lemma todo_loop_app (before after : list dict) :
  forall acc n,
    todo_loop (before ++ after) acc n =
    let (lists, n1) := todo_loop before acc n in todo_loop after lists n1.
Proof.
  induction before as [|a rest IH]; intros acc n.
  - reflexivity.
  - rewrite <- app_comm_cons, !todo_loop_cons.
    destruct (_calculate_days_until_due (get a "due_date" VNone) n) as [days n1].
    apply IH.
Qed.

Lemma in_critical_high_iff (priority : value) :
  in_critical_high priority = true <->
  priority = VStr "critical" \/ priority = VStr "high".
Proof.
  split.
  - destruct priority; simpl; try discriminate.
    intros H. apply orb_true_iff in H.
    destruct H as [H|H]; apply String.eqb_eq in H; subst; auto.
  - intros [-> | ->]; reflexivity.
Qed.

Lemma bucket_rule_urgent (days : option Z) (priority : value) :
  (exists d, days = Some d /\ d <= 3) -> bucket_rule days priority = Urgent.
Proof.
  intros (d & -> & Hd). unfold bucket_rule.
  apply Z.leb_le in Hd. now rewrite Hd.
Qed.

Lemma bucket_rule_not_urgent (days : option Z) (priority : value) :
  ~ (exists d, days = Some d /\ d <= 3) ->
  bucket_rule days priority
  = if in_critical_high priority then Important else Regular.
Proof.
  intros Hn. unfold bucket_rule. destruct days as [d|]; auto.
  destruct (d <=? 3) eqn:E; auto.
  apply Z.leb_le in E. destruct Hn. eauto.
Qed.

End Categorisation.

(** The rule run on dates: at the start of 2024, an assignment due on 4
    January is urgent whatever its priority, one due on 5 January with
    priority "high" is important, and one due on 11 January with priority
    "medium" is regular. *)
Example todo_loop_at_new_year :
  @todo_loop (frozen_runtime new_year_2024)
    [ [("assignment_id", VStr "A1"); ("due_date", VStr "2024-01-04T00:00:00Z");
       ("priority", VStr "low")];
      [("assignment_id", VStr "A2"); ("due_date", VStr "2024-01-05T00:00:00Z");
       ("priority", VStr "high")];
      [("assignment_id", VStr "A3"); ("due_date", VStr "2024-01-11T00:00:00Z");
       ("priority", VStr "medium")] ]
    (mktodo [] [] []) 0%nat
  = (mktodo
       [ @todo_task (frozen_runtime new_year_2024)
           [("assignment_id", VStr "A1"); ("due_date", VStr "2024-01-04T00:00:00Z");
            ("priority", VStr "low")] ]
       [ @todo_task (frozen_runtime new_year_2024)
           [("assignment_id", VStr "A2"); ("due_date", VStr "2024-01-05T00:00:00Z");
            ("priority", VStr "high")] ]
       [ @todo_task (frozen_runtime new_year_2024)
           [("assignment_id", VStr "A3"); ("due_date", VStr "2024-01-11T00:00:00Z");
            ("priority", VStr "medium")] ],
     3%nat).
Proof. vm_compute. reflexivity. Qed.

(** ** The to-do export: the buckets partition the input *)

Section Partition.

Context {R : Runtime}.

Lemma filled_categories_nth (l : list value) (c0 c1 c2 : dict) (u i r : value) :
  nth_error l 0 = Some (VDict c0) -> nth_error l 1 = Some (VDict c1) ->
  nth_error l 2 = Some (VDict c2) ->
  nth_error (filled_categories l c0 c1 c2 u i r) 0
    = Some (VDict (dict_set c0 "tasks" u)) /\
  nth_error (filled_categories l c0 c1 c2 u i r) 1
    = Some (VDict (dict_set c1 "tasks" i)) /\
  nth_error (filled_categories l c0 c1 c2 u i r) 2
    = Some (VDict (dict_set c2 "tasks" r)).
Proof.
  intros H0 H1 H2. unfold filled_categories. repeat split.
  - rewrite !nth_list_put_other by lia. eapply nth_list_put_same; eauto.
  - rewrite nth_list_put_other by lia. eapply nth_list_put_same.
    rewrite nth_list_put_other by lia. eauto.
  - eapply nth_list_put_same. rewrite !nth_list_put_other by lia. eauto.
Qed.

(** What the to-do export writes and where. *)
Lemma todo_output (template : value) (assignments : list dict) (n : nat)
  (out : value) :
  fst (transform_to_todo_format template assignments n) = Ok out ->
  let lists := fst (todo_loop assignments (mktodo [] [] []) n) in
  exists d l c0 c1 c2,
    template = VDict d /\ lookup "categories" d = Some (VList l) /\
    nth_error l 0 = Some (VDict c0) /\ nth_error l 1 = Some (VDict c1) /\
    nth_error l 2 = Some (VDict c2) /\
    out = VDict (dict_set d "categories"
            (VList (filled_categories l c0 c1 c2
                      (VList (urgent_important lists))
                      (VList (important_not_urgent lists))
                      (VList (regular lists))))).
Proof.
  unfold transform_to_todo_format, bind, ret.
  destruct (todo_loop assignments (mktodo [] [] []) n) as [lists n1]. simpl.
  intros H. now apply assign_three_slots_ok in H.
Qed.

(** C2: the three buckets of the to-do export partition the input.  Every
    assignment has one label, the bucket the rule gave it on its turn; each
    bucket holds exactly the tasks of the assignments with its label, in
    their input order; so the three buckets together are a rearrangement of
    the tasks of all the assignments, and these are the lists found in the
    categories 0, 1 and 2 of the output. *)
Theorem todo_buckets_partition_input
  (template : value) (assignments : list dict) (n : nat) :
  let labels := labels_of assignments n in
  let lists := fst (todo_loop assignments (mktodo [] [] []) n) in
  List.length labels = List.length assignments /\
  (forall b,
     bucket_list b lists = map todo_task (select b labels assignments)) /\
  Permutation
    (urgent_important lists ++ important_not_urgent lists ++ regular lists)%list
    (map todo_task assignments) /\
  (List.length (urgent_important lists)
   + List.length (important_not_urgent lists)
   + List.length (regular lists) = List.length assignments)%nat /\
  (forall out,
     fst (transform_to_todo_format template assignments n) = Ok out ->
     read_at out [SKey "categories"; SIdx 0; SKey "tasks"]
       = Ok (VList (urgent_important lists)) /\
     read_at out [SKey "categories"; SIdx 1; SKey "tasks"]
       = Ok (VList (important_not_urgent lists)) /\
     read_at out [SKey "categories"; SIdx 2; SKey "tasks"]
       = Ok (VList (regular lists))).
Proof.
  intros labels lists.
  assert (Hlen : List.length labels = List.length assignments)
    by apply length_labels_of.
  assert (Hsel : forall b,
            bucket_list b lists = map todo_task (select b labels assignments)).
  { intros b. unfold lists. rewrite todo_loop_lists. now destruct b. }
  assert (Hperm : Permutation
            (urgent_important lists ++ important_not_urgent lists
               ++ regular lists)%list
            (map todo_task assignments)).
  { generalize (Hsel Urgent), (Hsel Important), (Hsel Regular). simpl.
    intros -> -> ->. rewrite <- !map_app.
    apply Permutation_map. now apply select_partition. }
  split; [exact Hlen|]. split; [exact Hsel|]. split; [exact Hperm|]. split.
  - apply Permutation_length in Hperm.
    rewrite !length_app, length_map in Hperm. lia.
  - intros out Hout. apply todo_output in Hout.
    destruct Hout as (d & l & c0 & c1 & c2 & _ & _ & H0 & H1 & H2 & ->).
    fold lists.
    destruct (@filled_categories_nth l c0 c1 c2
                (VList (urgent_important lists))
                (VList (important_not_urgent lists))
                (VList (regular lists)) H0 H1 H2) as (F0 & F1 & F2).
    rewrite (@read_slot d "categories" _ 0 _ "tasks" F0).
    rewrite (@read_slot d "categories" _ 1 _ "tasks" F1).
    rewrite (@read_slot d "categories" _ 2 _ "tasks" F2).
    now rewrite !lookup_dict_set_same.
Qed.

End Partition.

Lemma todo_buckets_partition_input_witness :
  let R := frozen_runtime new_year_2024 in
  let out := VDict
    [ ("list_name", VStr "Assignments");
      ("categories", VList
         [ VDict [("name", VStr "Urgent & Important");
                  ("tasks", VList [todo_task (nth 0 assignments_example []);
                                   todo_task (nth 3 assignments_example [])])];
           VDict [("name", VStr "Important, Not Urgent");
                  ("tasks", VList [todo_task (nth 1 assignments_example [])])];
           VDict [("name", VStr "Regular");
                  ("tasks", VList [todo_task (nth 2 assignments_example [])])];
           VDict [("name", VStr "Someday")] ]);
      ("version", VInt 1) ] in
  fst (transform_to_todo_format todo_template_example assignments_example 0%nat)
    = Ok out /\
  read_at out [SKey "categories"; SIdx 0; SKey "tasks"]
    = Ok (VList (urgent_important
                   (fst (todo_loop assignments_example (mktodo [] [] []) 0%nat)))).
Proof.
  intros R out.
  assert (H : fst (transform_to_todo_format todo_template_example
                     assignments_example 0%nat) = Ok out)
    by (vm_compute; reflexivity).
  split; [exact H|].
  destruct (@todo_buckets_partition_input R todo_template_example
              assignments_example 0%nat) as (_ & _ & _ & _ & Hout).
  exact (proj1 (Hout out H)).
Defined.

(** ** The sheets export *)

Lemma nth_error_combine {A B : Type} (l : list A) :
  forall (l' : list B) (i : nat) (a : A),
    List.length l' = List.length l -> nth_error l i = Some a ->
    exists b, nth_error l' i = Some b /\ nth_error (combine l l') i = Some (a, b).
Proof.
  induction l as [|x rest IH]; intros [|y rest'] [|i] a Hlen Hi; simpl in *;
    try discriminate.
  - injection Hi as <-. eauto.
  - injection Hlen as Hlen. eauto.
Qed.

Section Sheets.

Context {R : Runtime}.

Lemma sheets_output (template : value) (assignments : list dict) (n : nat)
  (out : value) :
  fst (transform_to_sheets_format template assignments n) = Ok out ->
  let rows := fst (sheets_loop assignments [] n) in
  exists d l c,
    template = VDict d /\ lookup "sheet_tabs" d = Some (VList l) /\
    nth_error l 0 = Some (VDict c) /\
    out = VDict (dict_set d "sheet_tabs"
            (VList (list_put l 0 (VDict (dict_set c "rows" (VList rows)))))).
Proof.
  unfold transform_to_sheets_format, bind, ret.
  destruct (sheets_loop assignments [] n) as [rows n1]. simpl.
  intros H. now apply assign_slot_ok in H.
Qed.

End Sheets.

(** The row of an assignment that has nothing but its identifier and a
    malformed due date. *)
Example sheet_row_of_sparse_assignment :
  nth_error
    (fst (@sheets_loop (frozen_runtime new_year_2024) assignments_example [] 0%nat))
    2
  = Some (VList [ VStr "A3"; VStr ""; VStr ""; VStr ""; VStr ""; VStr ""; VStr "";
                  VStr "not-a-date"; VNone; VStr ""; VStr ""; VStr ""; VStr "" ]).
Proof. vm_compute. reflexivity. Qed.

(** ** The notion export *)

(** Case analysis on the membership of a triple in a literal list, running
    [tac] on each member. *)
Ltac in_cases H tac :=
  simpl in H;
  repeat (destruct H as [H|H]; [injection H as <- <- <-; tac|]);
  try contradiction.

Section Notion.

Context {R : Runtime}.

Lemma notion_output (template : value) (assignments : list dict) (n : nat)
  (out : value) :
  fst (transform_to_notion_format template assignments n) = Ok out ->
  exists d,
    template = VDict d /\
    out = VDict (dict_set d "pages" (VList (notion_loop assignments []))).
Proof.
  unfold transform_to_notion_format, ret. simpl.
  destruct template; simpl; try discriminate.
  intros H. injection H as <-. eauto.
Qed.

Lemma notion_property_of (a : dict) (property key : string) (default : value) :
  In (property, key, default) notion_properties ->
  exists props,
    field (notion_page a) "properties" = Some (VDict props) /\
    lookup property props = Some (get a key default).
Proof.
  intros Hin. eexists. split; [reflexivity|].
  in_cases Hin reflexivity.
Qed.

End Notion.

(** The page of an assignment that has nothing but an identifier. *)
Example notion_page_of_bare_assignment :
  @notion_page (frozen_runtime new_year_2024) [("assignment_id", VStr "A9")]
  = VDict
      [ ("page_id", VStr "page_A9");
        ("properties", VDict
           [ ("Assignment ID", VStr "A9"); ("Title", VStr ""); ("Class", VStr "");
             ("Type", VStr ""); ("Status", VStr ""); ("Priority", VStr "");
             ("Assigned Date", VStr ""); ("Due Date", VStr "");
             ("Points", VInt 0); ("Estimated Hours", VInt 0); ("URL", VStr "");
             ("Tags", VList []) ]);
        ("content", notion_content (VStr "")) ].
Proof. reflexivity. Qed.

(** ** Days until due *)

Section DaysUntilDue.

Context {R : Runtime}.

(** C5: [_calculate_days_until_due] returns none when its input is absent
    and when its input does not parse as an ISO-8601 date, and no exception
    of its [try] body reaches the caller: whatever the input, the result is
    none exactly when the input is empty or the body raised.  So it is for
    [None] and, under the reference parser, for "not-a-date". *)
Theorem days_until_due_none_on_absent_or_malformed (n : nat) :
  _calculate_days_until_due VNone n = (None, n) /\
  (forall a, lookup "due_date" a = None ->
     _calculate_days_until_due (get a "due_date" VNone) n = (None, n)) /\
  (forall s, fromisoformat (replace_Z s) = None ->
     _calculate_days_until_due (VStr s) n = (None, n)) /\
  (forall v,
     fst (_calculate_days_until_due v n) = None <->
     truthy v = false \/ exists e, fst (days_until_due_try v n) = Raise e) /\
  (forall v e n1,
     days_until_due_try v n = (Raise e, n1) ->
     truthy v = true -> _calculate_days_until_due v n = (None, n1)) /\
  (forall repr ticks,
     @_calculate_days_until_due (reference_runtime repr ticks)
       (VStr "not-a-date") n = (None, n)).
Proof.
  split; [reflexivity|]. split; [|split; [|split; [|split]]].
  - intros a Habs. unfold get. now rewrite Habs.
  - intros s Hs. unfold _calculate_days_until_due.
    destruct (truthy (VStr s)); simpl; [|reflexivity].
    unfold bind, days_until_due_try. now rewrite Hs.
  - intros v. unfold _calculate_days_until_due.
    destruct (truthy v) eqn:Ht; simpl.
    + unfold bind. destruct (days_until_due_try v n) as [[days|e] n1]; simpl.
      * split; [discriminate|]. intros [H|[e H]]; discriminate.
      * split; eauto.
    + split; auto.
  - intros v e n1 Htry Ht. unfold _calculate_days_until_due.
    rewrite Ht. simpl. unfold bind. now rewrite Htry.
  - intros repr ticks. reflexivity.
Qed.

(** C6: for a due date that parses, [_calculate_days_until_due] reads the
    clock once and returns the number of whole days in due date minus now,
    rounded towards negative infinity: a due date in the past gives a
    negative number and one less than a day ahead gives 0.  Now is taken in
    the zone of the due date, so that for an aware due date the difference
    is the time from the clock's instant to the due instant. *)
Theorem days_until_due_is_floor_of_difference
  (s : string) (due_date : datetime) (n : nat) :
  s <> "" ->
  fromisoformat (replace_Z s) = Some due_date ->
  let now := datetime_now n (tzinfo due_date) in
  let delta := wall due_date - wall now in
  exists days,
    _calculate_days_until_due (VStr s) n = (Some days, S n) /\
    days * us_per_day <= delta < (days + 1) * us_per_day /\
    (delta < 0 -> days < 0) /\
    (0 <= delta < us_per_day -> days = 0) /\
    tzinfo now = tzinfo due_date /\
    (forall off, tzinfo due_date = Some off ->
       delta = (wall due_date - off) - clock n).
Proof.
  intros Hs Hd now delta.
  exists (timedelta_days delta).
  split; [now apply days_of_parsed|].
  unfold timedelta_days, us_per_day.
  pose proof (Z.div_mod delta 86400000000 ltac:(lia)) as Hdm.
  pose proof (Z.mod_pos_bound delta 86400000000 ltac:(lia)) as Hm.
  repeat split.
  - lia.
  - lia.
  - intros Hneg. lia.
  - intros Hfrac. symmetry. apply (Z.div_unique delta 86400000000 0 delta); lia.
  - unfold now, datetime_now. now destruct (tzinfo due_date).
  - intros off Hoff. unfold delta, now, datetime_now. rewrite Hoff. simpl. lia.
Qed.

End DaysUntilDue.

Lemma days_until_due_none_on_absent_or_malformed_witness :
  let R := frozen_runtime new_year_2024 in
  fromisoformat (replace_Z "2024-13-01") = None /\
  _calculate_days_until_due (VStr "2024-13-01") 0%nat = (None, 0%nat).
Proof.
  intros R.
  assert (H : fromisoformat (replace_Z "2024-13-01") = None) by reflexivity.
  split; [exact H|].
  destruct (@days_until_due_none_on_absent_or_malformed R 0%nat)
    as (_ & _ & Hbad & _).
  exact (Hbad "2024-13-01" H).
Defined.

Lemma days_until_due_is_floor_of_difference_witness :
  let R := frozen_runtime new_year_2024 in
  let s := "2023-12-31T18:30:00Z" in
  let due_date := mkdatetime ((ymd2ord 2023 12 31 - 1) * us_per_day
                              + us_of_hms 18 30 0 0) (Some 0) in
  s <> "" /\
  fromisoformat (replace_Z s) = Some due_date /\
  exists days,
    _calculate_days_until_due (VStr s) 0%nat = (Some days, 1%nat) /\
    days * us_per_day <= wall due_date - wall (datetime_now 0 (tzinfo due_date))
      < (days + 1) * us_per_day.
Proof.
  intros R s due_date.
  assert (Hs : s <> "") by discriminate.
  assert (Hd : fromisoformat (replace_Z s) = Some due_date)
    by (vm_compute; reflexivity).
  split; [exact Hs|]. split; [exact Hd|].
  destruct (@days_until_due_is_floor_of_difference R s due_date 0%nat Hs Hd)
    as (days & Hdays & Hfloor & _).
  exists days. split; [exact Hdays | exact Hfloor].
Defined.

(** Half a day before the clock's instant is day -1; half a day after it
    is day 0. *)
Example days_until_due_around_now :
  fst (@_calculate_days_until_due (frozen_runtime new_year_2024)
         (VStr "2023-12-31T12:00:00Z") 0%nat) = Some (-1) /\
  fst (@_calculate_days_until_due (frozen_runtime new_year_2024)
         (VStr "2024-01-01T12:00:00Z") 0%nat) = Some 0 /\
  fst (@_calculate_days_until_due (frozen_runtime new_year_2024)
         (VStr "2024-01-04T00:00:00+00:00") 0%nat) = Some 3.
Proof. vm_compute. repeat split. Qed.

(** ** Defaults of absent fields *)

Section Defaults.

Context {R : Runtime}.

(** C7, as amended: a field absent from the assignment is shown as follows.
    In the sheets export every field column is the empty string.  In the
    notion export Points and Estimated Hours are 0, every other field
    property is the empty string, and so is the description paragraph.  In
    the to-do export description, due_date and url are the empty string,
    each of the two tags is the empty string when its field, type for the
    first and class_code for the second, is absent, estimated_time is
    "0 hours", and priority is "medium".  The derived values,
    days_until_due and the synthesized identifiers and title, are not part
    of the rule. *)
Theorem absent_fields_default (a : dict) (days : option Z) :
  sheet_row a days = map (column_value a days) sheet_columns /\
  (forall column,
     In column sheet_columns -> column <> "days_until_due" ->
     lookup column a = None -> column_value a days column = VStr "") /\
  (forall property key default,
     In (property, key, default) notion_properties -> lookup key a = None ->
     exists props,
       field (notion_page a) "properties" = Some (VDict props) /\
       lookup property props = Some default /\
       (default = VStr "" \/ default = VInt 0) /\
       default = (if String.eqb property "Points"
                     || String.eqb property "Estimated Hours"
                  then VInt 0 else VStr "")) /\
  (lookup "description" a = None ->
   field (notion_page a) "content" = Some (notion_content (VStr ""))) /\
  (forall task_field key default,
     In (task_field, key, default) todo_fields -> lookup key a = None ->
     field (todo_task a) task_field = Some default /\
     (task_field <> "priority" -> default = VStr "") /\
     (task_field = "priority" -> default = VStr "medium")) /\
  (lookup "estimated_hours" a = None ->
   field (todo_task a) "estimated_time" = Some (VStr "0 hours")) /\
  (lookup "type" a = None ->
   field (todo_task a) "tags"
   = Some (VList [VStr ""; get a "class_code" (VStr "")])) /\
  (lookup "class_code" a = None ->
   field (todo_task a) "tags"
   = Some (VList [get a "type" (VStr ""); VStr ""])) /\
  (lookup "type" a = None -> lookup "class_code" a = None ->
   field (todo_task a) "tags" = Some (VList [VStr ""; VStr ""])).
Proof.
  split; [reflexivity|].
  split; [|split; [|split; [|split; [|split; [|split; [|split]]]]]].
  - intros column _ Hcol Habs. unfold column_value.
    destruct (String.eqb column "days_until_due") eqn:E.
    + apply String.eqb_eq in E. contradiction.
    + unfold get. now rewrite Habs.
  - intros property key default Hin Habs.
    destruct (notion_property_of a Hin) as (props & Hprops & Hlook).
    exists props. split; [exact Hprops|]. split; [|split].
    + rewrite Hlook. unfold get. now rewrite Habs.
    + in_cases Hin auto.
    + in_cases Hin reflexivity.
  - intros Habs. simpl. unfold get. now rewrite Habs.
  - intros task_field key default Hin Habs.
    in_cases Hin
      ltac:(simpl; unfold get; rewrite Habs;
            repeat split; try reflexivity; try discriminate;
            intros H; now destruct H).
  - intros Habs. simpl. unfold get. rewrite Habs. reflexivity.
  - intros Htype. simpl. unfold get at 1. rewrite Htype. reflexivity.
  - intros Hclass. simpl. unfold get at 2. rewrite Hclass. reflexivity.
  - intros Htype Hclass. simpl. unfold get. rewrite Htype, Hclass. reflexivity.
Qed.

End Defaults.

Lemma absent_fields_default_witness :
  let R := frozen_runtime new_year_2024 in
  let a := [("assignment_id", VStr "A1"); ("class_code", VStr "CS101")] in
  lookup "priority" a = None /\
  field (todo_task a) "priority" = Some (VStr "medium") /\
  lookup "estimated_hours" a = None /\
  field (todo_task a) "estimated_time" = Some (VStr "0 hours") /\
  lookup "type" a = None /\
  field (todo_task a) "tags" = Some (VList [VStr ""; VStr "CS101"]).
Proof.
  intros R a.
  assert (Hp : lookup "priority" a = None) by reflexivity.
  assert (Hh : lookup "estimated_hours" a = None) by reflexivity.
  assert (Ht : lookup "type" a = None) by reflexivity.
  destruct (@absent_fields_default R a None)
    as (_ & _ & _ & _ & Htodo & Hest & Htag & _).
  split; [exact Hp|]. split.
  - apply (Htodo "priority" "priority" (VStr "medium")); [|exact Hp].
    simpl. auto.
  - split; [exact Hh|]. split; [exact (Hest Hh)|].
    split; [exact Ht | exact (Htag Ht)].
Defined.

(** An assignment without a priority gets the priority "medium" in its
    task, which is neither the empty string nor zero. *)
Lemma todo_absent_priority_is_medium :
  let R := frozen_runtime new_year_2024 in
  let a := [("assignment_id", VStr "A1")] in
  lookup "priority" a = None /\
  field (todo_task a) "priority" = Some (VStr "medium") /\
  ~ empty_or_zero (todo_task a) "priority".
Proof.
  intros R a. split; [reflexivity|]. split; [reflexivity|].
  intros [H|H]; discriminate.
Qed.

(** ** The rest of the template *)

Lemma dict_set_frame (d : dict) (k : string) (v : value) :
  dict_frame k d (dict_set d k v).
Proof.
  induction d as [|[k' v'] rest IH]; simpl.
  - apply (frame_add k [] v). reflexivity.
  - destruct (String.eqb k k') eqn:E.
    + apply String.eqb_eq in E. subst k'.
      apply (frame_replace k [] v' v rest).
    + inversion IH as [before old new after Hd Hd' | d0 new Habs Hd Hd'].
      * apply (frame_replace k ((k', v') :: before) old new after).
      * apply (frame_add k ((k', v') :: rest) new). simpl. now rewrite E.
Qed.

Section Frame.

Context {R : Runtime}.

(** C8: the transformer changes only the slot of its kind.  The sheets
    output is the template but for the value of [sheet_tabs], which is the
    same list but for its first tab, which is the same tab but for its
    [rows].  The notion output is the template but for its [pages].  The
    to-do output is the template but for [categories], which is the same
    list but for its first three categories, each the same but for its
    [tasks].  Hence every other key of the template, of the tab and of the
    categories reads as before. *)
Theorem template_passed_through_outside_slots
  (template : value) (assignments : list dict) (n : nat) (out : value) :
  (fst (transform_to_sheets_format template assignments n) = Ok out ->
   exists d d' tab tab' others,
     template = VDict d /\ out = VDict d' /\
     dict_frame "sheet_tabs" d d' /\ keys d' = keys d /\
     lookup "sheet_tabs" d = Some (VList (VDict tab :: others)) /\
     lookup "sheet_tabs" d' = Some (VList (VDict tab' :: others)) /\
     dict_frame "rows" tab tab' /\
     (forall k, k <> "sheet_tabs" -> lookup k d' = lookup k d) /\
     (forall k, k <> "rows" -> lookup k tab' = lookup k tab)) /\
  (fst (transform_to_notion_format template assignments n) = Ok out ->
   exists d d',
     template = VDict d /\ out = VDict d' /\ dict_frame "pages" d d' /\
     (forall k, k <> "pages" -> lookup k d' = lookup k d)) /\
  (fst (transform_to_todo_format template assignments n) = Ok out ->
   exists d d' c0 c1 c2 c0' c1' c2' others,
     template = VDict d /\ out = VDict d' /\
     dict_frame "categories" d d' /\ keys d' = keys d /\
     lookup "categories" d
       = Some (VList (VDict c0 :: VDict c1 :: VDict c2 :: others)) /\
     lookup "categories" d'
       = Some (VList (VDict c0' :: VDict c1' :: VDict c2' :: others)) /\
     dict_frame "tasks" c0 c0' /\ dict_frame "tasks" c1 c1' /\
     dict_frame "tasks" c2 c2' /\
     (forall k, k <> "categories" -> lookup k d' = lookup k d) /\
     (forall k, k <> "tasks" ->
        lookup k c0' = lookup k c0 /\ lookup k c1' = lookup k c1 /\
        lookup k c2' = lookup k c2)).
Proof.
  split; [|split].
  - intros Hout. apply sheets_output in Hout.
    destruct Hout as (d & l & c & -> & HK & H0 & ->).
    destruct l as [|x others]; [discriminate|]. injection H0 as ->.
    eexists d, _, c, _, others.
    split; [reflexivity|]. split; [reflexivity|].
    split; [apply dict_set_frame|].
    split; [eapply keys_dict_set_present; eauto|].
    split; [exact HK|].
    split; [simpl; apply lookup_dict_set_same|].
    split; [apply dict_set_frame|]. split.
    + intros k Hk. now apply lookup_dict_set_other.
    + intros k Hk. now apply lookup_dict_set_other.
  - intros Hout. apply notion_output in Hout.
    destruct Hout as (d & -> & ->).
    eexists d, _. split; [reflexivity|]. split; [reflexivity|].
    split; [apply dict_set_frame|].
    intros k Hk. now apply lookup_dict_set_other.
  - intros Hout. apply todo_output in Hout.
    destruct Hout as (d & l & c0 & c1 & c2 & -> & HK & H0 & H1 & H2 & ->).
    destruct l as [|x0 [|x1 [|x2 others]]]; try discriminate.
    injection H0 as ->. injection H1 as ->. injection H2 as ->.
    eexists d, _, c0, c1, c2, _, _, _, others.
    split; [reflexivity|]. split; [reflexivity|].
    split; [apply dict_set_frame|].
    split; [eapply keys_dict_set_present; eauto|].
    split; [exact HK|].
    split; [unfold filled_categories; simpl; apply lookup_dict_set_same|].
    split; [apply dict_set_frame|]. split; [apply dict_set_frame|].
    split; [apply dict_set_frame|]. split.
    + intros k Hk. now apply lookup_dict_set_other.
    + intros k Hk. repeat split; now apply lookup_dict_set_other.
Qed.

End Frame.

Lemma template_passed_through_outside_slots_witness :
  let R := frozen_runtime new_year_2024 in
  let out := VDict
    [ ("database_name", VStr "Assignments");
      ("pages", VList (map notion_page assignments_example));
      ("views", VList [VStr "Calendar"; VStr "Board"]) ] in
  fst (transform_to_notion_format notion_template_example assignments_example 0%nat)
    = Ok out /\
  exists d d',
    notion_template_example = VDict d /\ out = VDict d' /\
    dict_frame "pages" d d' /\
    (forall k, k <> "pages" -> lookup k d' = lookup k d).
Proof.
  intros R out.
  assert (H : fst (transform_to_notion_format notion_template_example
                     assignments_example 0%nat) = Ok out) by reflexivity.
  split; [exact H|].
  destruct (@template_passed_through_outside_slots R notion_template_example
              assignments_example 0%nat out) as (_ & Hnotion & _).
  exact (Hnotion H).
Defined.

(** The sheets export over a template with two tabs: the name of the
    spreadsheet, the other fields of the first tab and the whole second tab
    are as they were. *)
Example sheets_export_keeps_the_rest :
  fst (@transform_to_sheets_format (frozen_runtime new_year_2024)
         sheets_template_example
         [[("assignment_id", VStr "A3"); ("due_date", VStr "not-a-date")]] 0%nat)
  = Ok (VDict
      [ ("spreadsheet_name", VStr "Assignment Tracker");
        ("sheet_tabs", VList
           [ VDict [("tab_name", VStr "All Assignments");
                    ("columns", VList [VStr "ID"; VStr "Class"]);
                    ("rows", VList
                       [VList [ VStr "A3"; VStr ""; VStr ""; VStr ""; VStr "";
                                VStr ""; VStr ""; VStr "not-a-date"; VNone;
                                VStr ""; VStr ""; VStr ""; VStr "" ]])];
             VDict [("tab_name", VStr "Summary"); ("rows", VList [])] ]) ]).
Proof. vm_compute. reflexivity. Qed.

(** ** Determinism under a frozen clock *)

Section Determinism.

Context {R : Runtime}.

Lemma transform_to_sheets_format_result
  (template : value) (assignments : list dict) (n : nat) :
  fst (transform_to_sheets_format template assignments n)
  = assign_at template [SKey "sheet_tabs"; SIdx 0] "rows"
      (VList (fst (sheets_loop assignments [] n))).
Proof.
  unfold transform_to_sheets_format, bind, ret.
  now destruct (sheets_loop assignments [] n).
Qed.

Lemma transform_to_todo_format_result
  (template : value) (assignments : list dict) (n : nat) :
  fst (transform_to_todo_format template assignments n)
  = let lists := fst (todo_loop assignments (mktodo [] [] []) n) in
    (do t0 <- assign_at template [SKey "categories"; SIdx 0] "tasks"
                (VList (urgent_important lists));
     do t1 <- assign_at t0 [SKey "categories"; SIdx 1] "tasks"
                (VList (important_not_urgent lists));
     assign_at t1 [SKey "categories"; SIdx 2] "tasks"
                (VList (regular lists)))%result.
Proof.
  unfold transform_to_todo_format, bind, ret.
  now destruct (todo_loop assignments (mktodo [] [] []) n).
Qed.

(** The result of the whole run in terms of the results of its three
    transformations, each started at the reading the one before it
    reached. *)
Lemma export_all_formats_result
  (sheets_template notion_template todo_template : value)
  (assignments : list dict) (n : nat) :
  fst (export_all_formats sheets_template notion_template todo_template
         assignments n)
  = let s := transform_to_sheets_format sheets_template assignments n in
    let p := transform_to_notion_format notion_template assignments (snd s) in
    let t := transform_to_todo_format todo_template assignments (snd p) in
    (do sheets <- fst s; do notion <- fst p; do todo <- fst t;
     Ok (sheets, notion, todo))%result.
Proof.
  unfold export_all_formats, bind.
  destruct (transform_to_sheets_format sheets_template assignments n)
    as [[sheets|e] n1]; cbn [fst snd rbind]; [|reflexivity].
  destruct (transform_to_notion_format notion_template assignments n1)
    as [[notion|e] n2]; cbn [fst snd rbind]; [|reflexivity].
  destruct (transform_to_todo_format todo_template assignments n2)
    as [[todo|e] n3]; reflexivity.
Qed.

Hypothesis frozen : forall i j, clock i = clock j.

Lemma days_frozen (v : value) (n m : nat) :
  fst (_calculate_days_until_due v n) = fst (_calculate_days_until_due v m).
Proof.
  unfold _calculate_days_until_due.
  destruct (truthy v); simpl; [|reflexivity].
  unfold bind, days_until_due_try.
  destruct v; try reflexivity.
  destruct (fromisoformat (replace_Z s)) as [d|]; [|reflexivity].
  rewrite !datetime_sub_now. simpl.
  unfold datetime_now. now rewrite (frozen n m).
Qed.

Lemma days_trace_frozen (assignments : list dict) :
  forall n m, fst (days_trace assignments n) = fst (days_trace assignments m).
Proof.
  induction assignments as [|a rest IH]; intros n m.
  - reflexivity.
  - rewrite !days_trace_cons.
    pose proof (days_frozen (get a "due_date" VNone) n m) as Hd.
    destruct (_calculate_days_until_due (get a "due_date" VNone) n) as [d1 n1].
    destruct (_calculate_days_until_due (get a "due_date" VNone) m) as [d2 m1].
    simpl in *. subst d2. f_equal. apply IH.
Qed.

Lemma sheets_loop_frozen (assignments : list dict) (rows : list value) (n m : nat) :
  fst (sheets_loop assignments rows n) = fst (sheets_loop assignments rows m).
Proof.
  rewrite !sheets_loop_rows. simpl.
  now rewrite (days_trace_frozen assignments n m).
Qed.

Lemma todo_loop_frozen (assignments : list dict) (acc : todo_lists) (n m : nat) :
  fst (todo_loop assignments acc n) = fst (todo_loop assignments acc m).
Proof.
  rewrite !todo_loop_lists. simpl. unfold labels_of.
  now rewrite (days_trace_frozen assignments n m).
Qed.

End Determinism.

(** C9: with the clock frozen, so that every reading of it gives the same
    instant, a run of the transformation gives the same output documents
    whatever number of readings went before it; a second run over the same
    assignments and templates therefore gives the documents of the first,
    for each of the three exports and for the three together. *)
Theorem frozen_clock_runs_agree
  (R : Runtime) (sheets_template notion_template todo_template : value)
  (assignments : list dict) (n m : nat) :
  (forall i j, clock i = clock j) ->
  fst (transform_to_sheets_format sheets_template assignments n)
    = fst (transform_to_sheets_format sheets_template assignments m) /\
  fst (transform_to_notion_format notion_template assignments n)
    = fst (transform_to_notion_format notion_template assignments m) /\
  fst (transform_to_todo_format todo_template assignments n)
    = fst (transform_to_todo_format todo_template assignments m) /\
  fst (export_all_formats sheets_template notion_template todo_template
         assignments n)
    = fst (export_all_formats sheets_template notion_template todo_template
             assignments m).
Proof.
  intros frozen.
  assert (Hs : forall t i j,
            fst (transform_to_sheets_format t assignments i)
            = fst (transform_to_sheets_format t assignments j)).
  { intros t i j. rewrite !transform_to_sheets_format_result.
    now rewrite (sheets_loop_frozen frozen assignments [] i j). }
  assert (Hp : forall t i j,
            fst (transform_to_notion_format t assignments i)
            = fst (transform_to_notion_format t assignments j))
    by reflexivity.
  assert (Ht : forall t i j,
            fst (transform_to_todo_format t assignments i)
            = fst (transform_to_todo_format t assignments j)).
  { intros t i j. rewrite !transform_to_todo_format_result.
    now rewrite (todo_loop_frozen frozen assignments (mktodo [] [] []) i j). }
  split; [apply Hs|]. split; [apply Hp|]. split; [apply Ht|].
  rewrite !export_all_formats_result. cbv zeta.
  rewrite (Hs sheets_template n m).
  rewrite (Hp notion_template
             (snd (transform_to_sheets_format sheets_template assignments n))
             (snd (transform_to_sheets_format sheets_template assignments m))).
  rewrite (Ht todo_template
             (snd (transform_to_notion_format notion_template assignments
                     (snd (transform_to_sheets_format sheets_template assignments n))))
             (snd (transform_to_notion_format notion_template assignments
                     (snd (transform_to_sheets_format sheets_template assignments m))))).
  reflexivity.
Qed.

Lemma frozen_clock_runs_agree_witness :
  let R := frozen_runtime new_year_2024 in
  (forall i j : nat, clock i = clock j) /\
  fst (export_all_formats sheets_template_example notion_template_example
         todo_template_example assignments_example 0%nat)
  = fst (export_all_formats sheets_template_example notion_template_example
           todo_template_example assignments_example 9%nat).
Proof.
  intros R.
  assert (H : forall i j : nat, clock i = clock j) by (intros i j; reflexivity).
  split; [exact H|].
  destruct (@frozen_clock_runs_agree R sheets_template_example
              notion_template_example todo_template_example
              assignments_example 0%nat 9%nat H) as (_ & _ & _ & Hall).
  exact Hall.
Defined.

(** Under the moving clock the same due date is 4 days out at the first
    reading and 3 at the second. *)
Example moving_clock_runs_differ :
  fst (@_calculate_days_until_due daily_runtime
         (VStr "2024-01-05T00:00:00Z") 0%nat) = Some 4 /\
  fst (@_calculate_days_until_due daily_runtime
         (VStr "2024-01-05T00:00:00Z") 1%nat) = Some 3.
Proof. vm_compute. split; reflexivity. Qed.

(** ** What the exports need of their template *)

Section Precondition.

Context {R : Runtime}.

Lemma nth_error_none_short (l : list value) (i : nat) :
  (List.length l <= i)%nat -> nth_error l i = None.
Proof. intros H. now apply nth_error_None. Qed.

(** C10, as amended: the sheets export needs the first element of the
    template's [sheet_tabs] list, and the to-do export the first three
    elements of its [categories] list, to exist and to be objects; then the
    export produces an output.  Without the key the export raises a key
    error; with a first sheet tab that is not an object it raises a type
    error; with a list too short it produces no output, and it raises an
    index error when the elements that are there are objects. *)
Theorem exports_need_their_template_slots
  (template : value) (assignments : list dict) (n : nat) :
  (has_objects template "sheet_tabs" 1 ->
   exists out, fst (transform_to_sheets_format template assignments n) = Ok out) /\
  (has_objects template "categories" 3 ->
   exists out, fst (transform_to_todo_format template assignments n) = Ok out) /\
  (forall d, template = VDict d -> lookup "sheet_tabs" d = None ->
     fst (transform_to_sheets_format template assignments n) = Raise KeyError) /\
  (forall d, template = VDict d -> lookup "sheet_tabs" d = Some (VList []) ->
     fst (transform_to_sheets_format template assignments n) = Raise IndexError) /\
  (forall d l x,
     template = VDict d -> lookup "sheet_tabs" d = Some (VList l) ->
     nth_error l 0 = Some x -> (forall c, x <> VDict c) ->
     fst (transform_to_sheets_format template assignments n) = Raise TypeError) /\
  (forall d, template = VDict d -> lookup "categories" d = None ->
     fst (transform_to_todo_format template assignments n) = Raise KeyError) /\
  (forall d l,
     template = VDict d -> lookup "categories" d = Some (VList l) ->
     (List.length l < 3)%nat ->
     exists e,
       fst (transform_to_todo_format template assignments n) = Raise e /\
       ((forall x, In x l -> exists c, x = VDict c) -> e = IndexError)).
Proof.
  split; [|split; [|split; [|split; [|split; [|split]]]]].
  - intros (d & l & -> & HK & _ & Hobj).
    destruct (Hobj 0%nat ltac:(lia)) as (c & Hc).
    rewrite transform_to_sheets_format_result.
    eexists. apply assign_slot_ok. eauto 8.
  - intros (d & l & -> & HK & _ & Hobj).
    destruct (Hobj 0%nat ltac:(lia)) as (c0 & Hc0).
    destruct (Hobj 1%nat ltac:(lia)) as (c1 & Hc1).
    destruct (Hobj 2%nat ltac:(lia)) as (c2 & Hc2).
    rewrite transform_to_todo_format_result. cbv zeta.
    eexists. apply assign_three_slots_ok.
    exists d, l, c0, c1, c2. repeat split; eauto.
  - intros d -> HK. rewrite transform_to_sheets_format_result.
    now apply assign_slot_no_key.
  - intros d -> HK. rewrite transform_to_sheets_format_result.
    now apply assign_slot_short with (l := []).
  - intros d l x -> HK Hx Hnot. rewrite transform_to_sheets_format_result.
    now apply assign_slot_not_dict with (l := l) (x := x).
  - intros d -> HK. rewrite transform_to_todo_format_result. cbv zeta.
    now rewrite assign_slot_no_key.
  - intros d l -> HK Hlen.
    rewrite transform_to_todo_format_result. cbv zeta.
    destruct (fst (transform_to_todo_format (VDict d) assignments n))
      as [out|e0] eqn:Hres.
    + apply todo_output in Hres.
      destruct Hres as (d' & l' & c0 & c1 & c2 & E & HK' & _ & _ & H2 & _).
      injection E as <-. rewrite HK in HK'. injection HK' as <-.
      rewrite nth_error_none_short in H2 by lia. discriminate.
    + rewrite transform_to_todo_format_result in Hres. cbv zeta in Hres.
      rewrite Hres. exists e0. split; [reflexivity|].
      intros Hobj.
      set (lists := fst (todo_loop assignments (mktodo [] [] []) n)) in *.
      destruct l as [|x0 [|x1 [|x2 rest]]]; simpl in Hlen; try lia.
      * rewrite assign_slot_short with (l := []) in Hres by auto.
        simpl in Hres. congruence.
      * destruct (Hobj x0 ltac:(simpl; auto)) as (c0 & ->).
        simpl in Hres. rewrite HK in Hres. simpl in Hres.
        rewrite lookup_dict_set_same in Hres. simpl in Hres. congruence.
      * destruct (Hobj x0 ltac:(simpl; auto)) as (c0 & ->).
        destruct (Hobj x1 ltac:(simpl; auto)) as (c1 & ->).
        simpl in Hres. rewrite HK in Hres. simpl in Hres.
        rewrite lookup_dict_set_same in Hres. simpl in Hres.
        rewrite dict_set_twice, lookup_dict_set_same in Hres. simpl in Hres.
        congruence.
Qed.

End Precondition.

Lemma exports_need_their_template_slots_witness :
  let R := frozen_runtime new_year_2024 in
  has_objects todo_template_example "categories" 3 /\
  exists out,
    fst (transform_to_todo_format todo_template_example assignments_example 0%nat)
    = Ok out.
Proof.
  intros R.
  assert (H : has_objects todo_template_example "categories" 3).
  { eexists _, _. split; [reflexivity|]. split; [reflexivity|].
    split; [simpl; lia|].
    intros [|[|[|i]]] Hi; try lia; eexists; reflexivity. }
  split; [exact H|].
  destruct (@exports_need_their_template_slots R todo_template_example
              assignments_example 0%nat) as (_ & Htodo & _).
  exact (Htodo H).
Defined.

(** The first sheet tab is there, but it is a number: the export raises a
    type error.  The first three categories are there, but the second is a
    string: so does the to-do export. *)
Lemma elements_present_but_not_objects :
  let R := frozen_runtime new_year_2024 in
  let sheets := VDict [("sheet_tabs", VList [VInt 5])] in
  let todo := VDict [("categories", VList [VDict []; VStr "later"; VDict []])] in
  has_elements sheets "sheet_tabs" 1 /\
  fst (transform_to_sheets_format sheets assignments_example 0%nat)
    = Raise TypeError /\
  has_elements todo "categories" 3 /\
  fst (transform_to_todo_format todo assignments_example 0%nat) = Raise TypeError.
Proof.
  intros R sheets todo.
  split; [eexists _, _; repeat split; simpl; lia|].
  split; [reflexivity|].
  split; [eexists _, _; repeat split; simpl; lia|].
  reflexivity.
Qed.

(** Two categories only: an index error and no output. *)
Example todo_export_with_two_categories :
  fst (@transform_to_todo_format (frozen_runtime new_year_2024)
         (VDict [("categories", VList [VDict []; VDict []])])
         assignments_example 0%nat)
  = Raise IndexError.
Proof. reflexivity. Qed.

(** ** The scraper stubs *)

Section ScraperFacts.

Context {R : Runtime}.

Lemma stub_on_dict (label : string) (d : dict) (st : scraper) :
  (sbind (lift (getitem (VDict d) (SKey "base_url")))
     (fun base_url =>
        sbind (print (label ++ py_str base_url)) (fun _ => sret []))) st
  = match lookup "base_url" d return result (list value) * scraper with
    | Some u =>
        (Ok [], mkscraper (self_assignments st) (stdout st ++ [label ++ py_str u]))
    | None => (Raise KeyError, st)
    end.
Proof.
  unfold sbind, lift, print, sret. simpl.
  now destruct (lookup "base_url" d).
Qed.

(** [scrape_platform] on an object, route by route. *)
Lemma scrape_platform_on_dict (d : dict) (st : scraper) :
  scrape_platform (VDict d) st =
  match lookup "platform_type" d with
  | None => (Raise KeyError, st)
  | Some t =>
      if negb (truthy (get d "enabled" (VBool true))) then
        (Ok [], mkscraper (self_assignments st)
                  (stdout st ++ ["Skipping disabled platform: " ++ py_str t]))
      else if eq_str t "Canvas" then scrape_canvas (VDict d) st
      else if eq_str t "Moodle" then scrape_moodle (VDict d) st
      else if eq_str t "Blackboard" then scrape_blackboard (VDict d) st
      else
        (Ok [], mkscraper (self_assignments st)
                  (stdout st ++ ["Unknown platform type: " ++ py_str t]))
  end.
Proof.
  unfold scrape_platform, sbind, lift, getitem, py_get, print, sret.
  destruct (lookup "platform_type" d) as [t|]; [|reflexivity].
  destruct (negb (truthy (get d "enabled" (VBool true)))); [reflexivity|].
  destruct (eq_str t "Canvas"); [reflexivity|].
  destruct (eq_str t "Moodle"); [reflexivity|].
  destruct (eq_str t "Blackboard"); reflexivity.
Qed.

(** Either the platform is one [scrape_platform] can handle, and it returns
    the empty list after printing one line; or it is not, and an exception
    is raised before anything is printed: a key error for an object, a type
    error for anything else. *)
Lemma scrape_platform_cases (platform : value) (st : scraper) :
  (platform_ok platform /\
   exists line,
     scrape_platform platform st
     = (Ok [], mkscraper (self_assignments st) (stdout st ++ [line]))) \/
  (~ platform_ok platform /\
   exists e,
     scrape_platform platform st = (Raise e, st) /\
     (e = KeyError <-> exists d, platform = VDict d) /\
     (e = TypeError <-> forall d, platform <> VDict d)).
Proof.
  destruct platform as [| b | z | f | s | l | d];
    try (right; split;
         [intros (d0 & t & E & _); discriminate
         |exists TypeError; split; [reflexivity|]; split;
          [split; [discriminate | intros (d0 & E); discriminate]
          |split; [intros _ d0 E; discriminate | reflexivity]]]).
  assert (Hkey : (KeyError = KeyError <-> exists d0, VDict d = VDict d0) /\
                 (KeyError = TypeError <-> forall d0, VDict d <> VDict d0)).
  { split; split; eauto; try discriminate. intros H. now destruct (H d). }
  rewrite scrape_platform_on_dict.
  destruct (lookup "platform_type" d) as [t|] eqn:Ht.
  2:{ right. split; [|eauto].
      intros (d0 & t & E & Ht' & _). injection E as <-. congruence. }
  destruct (truthy (get d "enabled" (VBool true))) eqn:He; simpl.
  2:{ left. split; [|eauto]. exists d, t. repeat split; auto. congruence. }
  unfold scrape_canvas, scrape_moodle, scrape_blackboard.
  rewrite !stub_on_dict.
  destruct (known_platform t) eqn:Hk.
  - destruct (lookup "base_url" d) as [u|] eqn:Hu.
    + left. split; [exists d, t; eauto|].
      destruct (eq_str t "Canvas"); [eauto|].
      destruct (eq_str t "Moodle"); [eauto|].
      destruct (eq_str t "Blackboard"); eauto.
    + right. split.
      * intros (d0 & t0 & E & Ht0 & Hb). injection E as <-.
        rewrite Ht in Ht0. injection Ht0 as <-.
        destruct (Hb He Hk) as (u & Hu'). congruence.
      * unfold known_platform in Hk.
        destruct (eq_str t "Canvas"); [eauto|].
        destruct (eq_str t "Moodle"); [eauto|].
        destruct (eq_str t "Blackboard"); [eauto|]. discriminate.
  - left. split.
    + exists d, t. repeat split; auto. congruence.
    + unfold known_platform in Hk.
      destruct (eq_str t "Canvas"); [discriminate|].
      destruct (eq_str t "Moodle"); [discriminate|].
      destruct (eq_str t "Blackboard"); [discriminate|]. eauto.
Qed.

Lemma scrape_each_cons (item : value) (rest : list value) (st : scraper) :
  scrape_each (item :: rest) st =
  match scrape_platform item st with
  | (Ok assignments, st') =>
      scrape_each rest
        (mkscraper (self_assignments st' ++ assignments) (stdout st'))
  | (Raise e, st') => (Raise e, st')
  end.
Proof.
  simpl. unfold sbind, extend.
  now destruct (scrape_platform item st) as [[assignments|e] st'].
Qed.

(** The loop keeps [self.assignments] and prints one line for each platform
    it gets through; it gets through all of them, or stops at the first one
    [scrape_platform] cannot handle. *)
Lemma scrape_each_cases (items : list value) :
  forall st,
    (Forall platform_ok items /\
     exists lines,
       List.length lines = List.length items /\
       scrape_each items st
       = (Ok tt, mkscraper (self_assignments st) (stdout st ++ lines))) \/
    (exists good bad rest e lines,
       items = (good ++ bad :: rest)%list /\ Forall platform_ok good /\
       ~ platform_ok bad /\ List.length lines = List.length good /\
       scrape_each items st
       = (Raise e, mkscraper (self_assignments st) (stdout st ++ lines))).
Proof.
  induction items as [|item rest IH]; intros st.
  - left. split; [constructor|]. exists []. split; [reflexivity|].
    simpl. unfold sret. rewrite app_nil_r. now destruct st.
  - rewrite scrape_each_cons.
    destruct (scrape_platform_cases item st)
      as [(Hok & line & Hrun) | (Hbad & e & Hrun & _)]; rewrite Hrun.
    + cbn [self_assignments stdout]. rewrite app_nil_r.
      destruct (IH (mkscraper (self_assignments st) (stdout st ++ [line])))
        as [(Hall & lines & Hlen & Hrest)
           | (good & bad & rest' & e & lines & -> & Hgood & Hbad & Hlen & Hrest)];
        rewrite Hrest; cbn [self_assignments stdout]; rewrite <- app_assoc.
      * left. split; [now constructor|]. exists (line :: lines).
        split; [simpl; now rewrite Hlen | reflexivity].
      * right. exists (item :: good), bad, rest', e, (line :: lines).
        split; [reflexivity|]. split; [now constructor|].
        split; [exact Hbad|]. split; [simpl; now rewrite Hlen | reflexivity].
    + right. exists [], item, rest, e, [].
      split; [reflexivity|]. split; [constructor|]. split; [exact Hbad|].
      split; [reflexivity|]. rewrite app_nil_r. now destruct st.
Qed.

Lemma scrape_each_stops (good : list value) (bad : value) (rest : list value) :
  Forall platform_ok good -> ~ platform_ok bad ->
  forall st,
    exists e lines,
      List.length lines = List.length good /\
      scrape_each (good ++ bad :: rest) st
      = (Raise e, mkscraper (self_assignments st) (stdout st ++ lines)).
Proof.
  intros Hgood Hbad. induction Hgood as [|item good Hitem Hgood IH]; intros st.
  - simpl app. rewrite scrape_each_cons.
    destruct (scrape_platform_cases bad st)
      as [(Hok & _) | (_ & e & Hrun & _)]; [contradiction|].
    rewrite Hrun. exists e, []. split; [reflexivity|].
    rewrite app_nil_r. now destruct st.
  - rewrite <- app_comm_cons, scrape_each_cons.
    destruct (scrape_platform_cases item st)
      as [(_ & line & Hrun) | (Hno & _)]; [|contradiction].
    rewrite Hrun. cbn [self_assignments stdout]. rewrite app_nil_r.
    destruct (IH (mkscraper (self_assignments st) (stdout st ++ [line])))
      as (e & lines & Hlen & Hrest).
    rewrite Hrest. cbn [self_assignments stdout]. rewrite <- app_assoc.
    exists e, (line :: lines). split; [simpl; now rewrite Hlen | reflexivity].
Qed.

(** The line [scrape_all] prints last. *)
Lemma scrape_all_unfold (data : value) (st : scraper) :
  scrape_all data st =
  match load_platforms data with
  | Raise e => (Raise e, st)
  | Ok platforms =>
      match iterate platforms with
      | Raise e => (Raise e, st)
      | Ok items =>
          match scrape_each items st with
          | (Raise e, st') => (Raise e, st')
          | (Ok _, st') =>
              (Ok (self_assignments st'),
               mkscraper (self_assignments st')
                 (stdout st'
                    ++ ["Total assignments scraped: "
                        ++ py_str (VInt (Z.of_nat
                                           (List.length (self_assignments st'))))]))
          end
      end
  end.
Proof.
  unfold scrape_all, sbind, lift, print.
  destruct (load_platforms data) as [platforms|e]; [|reflexivity].
  destruct (iterate platforms) as [items|e]; [|reflexivity].
  now destruct (scrape_each items st) as [[u|e] st'].
Qed.

(** X1: whenever [scrape_platform] returns, it returns the empty list, has
    left [self.assignments] as it was and has printed exactly one line. *)
Theorem scrape_platform_returns_no_assignments
  (platform : value) (st st' : scraper) (found : list value) :
  scrape_platform platform st = (Ok found, st') ->
  found = [] /\
  self_assignments st' = self_assignments st /\
  exists line, stdout st' = (stdout st ++ [line])%list.
Proof.
  intros Hrun.
  destruct (scrape_platform_cases platform st)
    as [(_ & line & Hok) | (_ & e & Hbad & _)]; rewrite Hrun in *.
  - injection Hok as -> ->. simpl. eauto.
  - discriminate.
Qed.

(** X2: [scrape_platform] returns exactly for an object that has a
    [platform_type], and a [base_url] when it is enabled and of one of the
    three known types.  Otherwise it raises before printing anything and
    leaves the scraper as it was: a key error for an object, a type error
    for any other value. *)
Theorem scrape_platform_raises_before_printing
  (platform : value) (st : scraper) :
  ((exists found st', scrape_platform platform st = (Ok found, st'))
   <-> platform_ok platform) /\
  (forall e st',
     scrape_platform platform st = (Raise e, st') ->
     st' = st /\
     (e = KeyError <-> exists d, platform = VDict d) /\
     (e = TypeError <-> forall d, platform <> VDict d)).
Proof.
  destruct (scrape_platform_cases platform st)
    as [(Hok & line & Hrun) | (Hbad & e & Hrun & Hkey & Htype)];
    rewrite Hrun; split.
  - split; eauto.
  - intros e st' H. discriminate.
  - split; [intros (found & st' & H); discriminate | contradiction].
  - intros e' st' H. injection H as <- <-. auto.
Qed.

(** X3: a platform whose [enabled] is false (or any falsy value) is skipped
    whatever its type and without looking at its [base_url]; a platform
    without the key [enabled] counts as enabled, so that one of an unknown
    type is reported as unknown and one of a known type is scraped. *)
Theorem disabled_platform_is_skipped
  (d : dict) (platform_type : value) (st : scraper) :
  lookup "platform_type" d = Some platform_type ->
  (forall enabled,
     lookup "enabled" d = Some enabled -> truthy enabled = false ->
     scrape_platform (VDict d) st
     = (Ok [], mkscraper (self_assignments st)
                 (stdout st ++ ["Skipping disabled platform: "
                                ++ py_str platform_type]))) /\
  (lookup "enabled" d = None -> known_platform platform_type = false ->
   scrape_platform (VDict d) st
   = (Ok [], mkscraper (self_assignments st)
               (stdout st ++ ["Unknown platform type: "
                              ++ py_str platform_type]))) /\
  (forall base_url,
     lookup "enabled" d = None -> platform_type = VStr "Canvas" ->
     lookup "base_url" d = Some base_url ->
     scrape_platform (VDict d) st
     = (Ok [], mkscraper (self_assignments st)
                 (stdout st ++ ["Scraping Canvas at " ++ py_str base_url]))).
Proof.
  intros Ht. rewrite scrape_platform_on_dict, Ht. unfold get.
  split; [|split].
  - intros enabled He Hfalse. now rewrite He, Hfalse.
  - intros He Hk. rewrite He. simpl. unfold known_platform in Hk.
    destruct (eq_str platform_type "Canvas"); [discriminate|].
    destruct (eq_str platform_type "Moodle"); [discriminate|].
    destruct (eq_str platform_type "Blackboard"); [discriminate|]. reflexivity.
  - intros base_url He -> Hu. rewrite He. simpl.
    unfold scrape_canvas. now rewrite stub_on_dict, Hu.
Qed.

(** X4: [scrape_all] never changes [self.assignments], whether it returns
    or raises.  When it returns, it returns that list, every platform was
    one [scrape_platform] can handle, and it has printed one line for each
    platform followed by the total, which is the number of assignments held
    before. *)
Theorem scrape_all_keeps_assignments
  (data : value) (st st' : scraper) (r : result (list value)) :
  scrape_all data st = (r, st') ->
  self_assignments st' = self_assignments st /\
  (forall returned,
     r = Ok returned ->
     returned = self_assignments st /\
     exists platforms items lines,
       load_platforms data = Ok platforms /\ iterate platforms = Ok items /\
       Forall platform_ok items /\
       List.length lines = List.length items /\
       stdout st'
       = (stdout st ++ lines
            ++ [("Total assignments scraped: "
                 ++ py_str (VInt (Z.of_nat (List.length (self_assignments st)))))%string])%list).
Proof.
  rewrite scrape_all_unfold.
  destruct (load_platforms data) as [platforms|e] eqn:Hload.
  2:{ intros H. injection H as <- <-. split; [reflexivity|]. discriminate. }
  destruct (iterate platforms) as [items|e] eqn:Hiter.
  2:{ intros H. injection H as <- <-. split; [reflexivity|]. discriminate. }
  destruct (scrape_each_cases items st)
    as [(Hall & lines & Hlen & Hrun)
       | (good & bad & rest & e & lines & _ & _ & _ & _ & Hrun)];
    rewrite Hrun; intros H; injection H as <- <-;
    cbn [self_assignments stdout].
  - split; [reflexivity|]. intros returned E. injection E as <-.
    split; [reflexivity|]. exists platforms, items, lines.
    repeat split; auto. now rewrite <- app_assoc.
  - split; [reflexivity|]. discriminate.
Qed.

(** X5: [scrape_all] stops at the first platform [scrape_platform] cannot
    handle: it has printed the lines of the platforms before it, it raises,
    the platforms after it are not visited and the total is not printed. *)
Theorem scrape_all_stops_at_first_bad_platform
  (data platforms : value) (good : list value) (bad : value) (rest : list value)
  (st : scraper) :
  load_platforms data = Ok platforms ->
  iterate platforms = Ok (good ++ bad :: rest)%list ->
  Forall platform_ok good -> ~ platform_ok bad ->
  exists e lines,
    List.length lines = List.length good /\
    scrape_all data st
    = (Raise e, mkscraper (self_assignments st) (stdout st ++ lines)).
Proof.
  intros Hload Hiter Hgood Hbad.
  rewrite scrape_all_unfold, Hload, Hiter.
  destruct (scrape_each_stops rest Hgood Hbad st) as (e & lines & Hlen & Hrun).
  rewrite Hrun. eauto.
Qed.

End ScraperFacts.

Lemma scrape_platform_returns_no_assignments_witness :
  let R := frozen_runtime new_year_2024 in
  let st := mkscraper [VStr "kept"] [] in
  let st' := mkscraper [VStr "kept"]
               ["Scraping Canvas at https://canvas.example.edu"] in
  scrape_platform canvas_example st = (Ok [], st') /\
  self_assignments st' = self_assignments st.
Proof.
  intros R st st'.
  assert (H : scrape_platform canvas_example st = (Ok [], st')) by reflexivity.
  split; [exact H|].
  exact (proj1 (proj2 (@scrape_platform_returns_no_assignments R canvas_example
                         st st' [] H))).
Defined.

Lemma scrape_platform_raises_before_printing_witness :
  let R := frozen_runtime new_year_2024 in
  let st := mkscraper [] ["earlier line"] in
  scrape_platform blackboard_without_url_example st = (Raise KeyError, st) /\
  (KeyError = KeyError <-> exists d, blackboard_without_url_example = VDict d).
Proof.
  intros R st.
  assert (H : scrape_platform blackboard_without_url_example st
              = (Raise KeyError, st)) by reflexivity.
  split; [exact H|].
  exact (proj1 (proj2 (proj2 (@scrape_platform_raises_before_printing R
                                blackboard_without_url_example st)
                         KeyError st H))).
Defined.

Lemma disabled_platform_is_skipped_witness :
  let R := frozen_runtime new_year_2024 in
  let d := [("platform_type", VStr "Moodle"); ("enabled", VBool false)] in
  let st := mkscraper [] [] in
  lookup "platform_type" d = Some (VStr "Moodle") /\
  lookup "enabled" d = Some (VBool false) /\
  truthy (VBool false) = false /\
  scrape_platform (VDict d) st
  = (Ok [], mkscraper [] ["Skipping disabled platform: Moodle"]).
Proof.
  intros R d st.
  assert (Ht : lookup "platform_type" d = Some (VStr "Moodle")) by reflexivity.
  assert (He : lookup "enabled" d = Some (VBool false)) by reflexivity.
  assert (Hf : truthy (VBool false) = false) by reflexivity.
  split; [exact Ht|]. split; [exact He|]. split; [exact Hf|].
  exact (proj1 (@disabled_platform_is_skipped R d (VStr "Moodle") st Ht)
           (VBool false) He Hf).
Defined.

Lemma scrape_all_keeps_assignments_witness :
  let R := frozen_runtime new_year_2024 in
  let st := mkscraper [VStr "kept"] [] in
  let st' := mkscraper [VStr "kept"]
               [ "Scraping Canvas at https://canvas.example.edu";
                 "Skipping disabled platform: Moodle";
                 "Unknown platform type: Brightspace";
                 "Total assignments scraped: 1" ] in
  scrape_all platforms_example st = (Ok [VStr "kept"], st') /\
  self_assignments st' = self_assignments st.
Proof.
  intros R st st'.
  assert (H : scrape_all platforms_example st = (Ok [VStr "kept"], st'))
    by reflexivity.
  split; [exact H|].
  exact (proj1 (@scrape_all_keeps_assignments R platforms_example st st'
                  (Ok [VStr "kept"]) H)).
Defined.

Lemma scrape_all_stops_at_first_bad_platform_witness :
  let R := frozen_runtime new_year_2024 in
  let st := mkscraper [] [] in
  load_platforms platforms_with_bad_example
    = Ok (VList [canvas_example; blackboard_without_url_example;
                 other_platform_example]) /\
  Forall platform_ok [canvas_example] /\
  ~ platform_ok blackboard_without_url_example /\
  exists e lines,
    List.length lines = 1%nat /\
    scrape_all platforms_with_bad_example st
    = (Raise e, mkscraper (self_assignments st) (stdout st ++ lines)).
Proof.
  intros R st.
  assert (Hload : load_platforms platforms_with_bad_example
                  = Ok (VList [canvas_example; blackboard_without_url_example;
                               other_platform_example])) by reflexivity.
  assert (Hiter : iterate (VList [canvas_example; blackboard_without_url_example;
                                  other_platform_example])
                  = Ok ([canvas_example]
                          ++ blackboard_without_url_example
                          :: [other_platform_example])%list) by reflexivity.
  assert (Hgood : Forall platform_ok [canvas_example]).
  { constructor; [|constructor].
    eexists _, _. split; [reflexivity|]. split; [reflexivity|].
    intros _ _. eexists. reflexivity. }
  assert (Hbad : ~ platform_ok blackboard_without_url_example).
  { intros (d & t & E & Ht & Hb). injection E as <-.
    injection Ht as <-.
    destruct (Hb eq_refl eq_refl) as (u & Hu). discriminate. }
  split; [exact Hload|]. split; [exact Hgood|]. split; [exact Hbad|].
  exact (@scrape_all_stops_at_first_bad_platform R platforms_with_bad_example
           _ [canvas_example] blackboard_without_url_example
           [other_platform_example] st Hload Hiter Hgood Hbad).
Defined.

(** Platforms given as an object instead of a list: the loop takes its
    keys, which are strings, and [scrape_platform] raises a type error on
    the first. *)
Example scrape_all_over_an_object :
  @scrape_all (frozen_runtime new_year_2024)
    (VDict [("platforms", VDict [("canvas", canvas_example)])])
    (mkscraper [] [])
  = (Raise TypeError, mkscraper [] []).
Proof. reflexivity. Qed.

(** ** Readings of the clock *)

Section ClockReadings.

Context {R : Runtime}.

Lemma days_reads_clock (a : dict) (n : nat) :
  snd (_calculate_days_until_due (get a "due_date" VNone) n)
  = if due_date_parses a then S n else n.
Proof.
  unfold due_date_parses, _calculate_days_until_due.
  destruct (get a "due_date" VNone) as [| b | z | f | s | l | d];
    try (destruct (truthy _); reflexivity).
  simpl. destruct (String.eqb s ""); simpl; [reflexivity|].
  unfold bind, days_until_due_try.
  destruct (fromisoformat (replace_Z s)) as [due|]; [|reflexivity].
  now rewrite datetime_sub_now.
Qed.

Lemma days_none_without_parse (a : dict) (n : nat) :
  due_date_parses a = false ->
  _calculate_days_until_due (get a "due_date" VNone) n = (None, n).
Proof.
  unfold due_date_parses, _calculate_days_until_due.
  destruct (get a "due_date" VNone) as [| b | z | f | s | l | d];
    intros H; try (destruct (truthy _); reflexivity).
  simpl in *. destruct (String.eqb s ""); simpl in *; [reflexivity|].
  unfold bind, days_until_due_try.
  destruct (fromisoformat (replace_Z s)) as [due|]; [discriminate|reflexivity].
Qed.

Lemma days_trace_reads_clock (assignments : list dict) :
  forall n,
    snd (days_trace assignments n) = (n + parsed_due_dates assignments)%nat.
Proof.
  unfold parsed_due_dates.
  induction assignments as [|a rest IH]; intros n.
  - simpl. lia.
  - rewrite days_trace_cons.
    pose proof (days_reads_clock a n) as Hread.
    destruct (_calculate_days_until_due (get a "due_date" VNone) n) as [days n1].
    simpl in Hread. simpl. rewrite IH, Hread.
    destruct (due_date_parses a); simpl; lia.
Qed.

(** X6: the sheets and the to-do export read the clock once for each
    assignment whose due date is a non-empty string that parses, and not at
    all for the others; the notion export never reads it.  The template has
    no part in this: the loop runs before the template is filled. *)
Theorem clock_read_once_per_parsed_due_date
  (template : value) (assignments : list dict) (n : nat) :
  snd (transform_to_sheets_format template assignments n)
    = (n + parsed_due_dates assignments)%nat /\
  snd (transform_to_notion_format template assignments n) = n /\
  snd (transform_to_todo_format template assignments n)
    = (n + parsed_due_dates assignments)%nat /\
  (forall a, lookup "due_date" a = None -> due_date_parses a = false) /\
  (forall a s, lookup "due_date" a = Some (VStr s) ->
     fromisoformat (replace_Z s) = None -> due_date_parses a = false).
Proof.
  split; [|split; [|split; [|split]]].
  - unfold transform_to_sheets_format, bind, ret.
    pose proof (sheets_loop_rows assignments [] n) as Hrows.
    destruct (sheets_loop assignments [] n) as [rows n1].
    injection Hrows as _ ->. simpl. apply days_trace_reads_clock.
  - reflexivity.
  - unfold transform_to_todo_format, bind, ret.
    pose proof (todo_loop_lists assignments (mktodo [] [] []) n) as Hlists.
    destruct (todo_loop assignments (mktodo [] [] []) n) as [lists n1].
    injection Hlists as _ ->. simpl. apply days_trace_reads_clock.
  - intros a Habs. unfold due_date_parses, get. now rewrite Habs.
  - intros a s Hs Hbad. unfold due_date_parses, get. rewrite Hs, Hbad.
    apply andb_false_r.
Qed.

(** X7: an assignment whose due date does not parse (absent, null, empty,
    not a string, or malformed) is never urgent: its task goes to the
    important list when its priority is "critical" or "high" and to the
    regular list otherwise, the clock is not read, and its row shows no days
    until due. *)
Theorem unparsed_due_date_is_never_urgent
  (a : dict) (rest : list dict) (acc : todo_lists) (rows : list value) (n : nat) :
  due_date_parses a = false ->
  todo_loop (a :: rest) acc n
  = todo_loop rest
      (add_task (if in_critical_high (get a "priority" VNone)
                 then Important else Regular)
         (todo_task a) acc) n /\
  sheets_loop (a :: rest) rows n
  = sheets_loop rest (rows ++ [VList (sheet_row a None)]) n.
Proof.
  intros Hparse. split.
  - rewrite todo_loop_cons, (days_none_without_parse a n Hparse). reflexivity.
  - simpl. unfold bind. now rewrite (days_none_without_parse a n Hparse).
Qed.

End ClockReadings.

Lemma clock_read_once_per_parsed_due_date_witness :
  let R := frozen_runtime new_year_2024 in
  let a := [("assignment_id", VStr "A3"); ("due_date", VStr "not-a-date")] in
  lookup "due_date" a = Some (VStr "not-a-date") /\
  fromisoformat (replace_Z "not-a-date") = None /\
  due_date_parses a = false /\
  snd (transform_to_sheets_format sheets_template_example assignments_example 0%nat)
    = (0 + parsed_due_dates assignments_example)%nat.
Proof.
  intros R a.
  assert (Hs : lookup "due_date" a = Some (VStr "not-a-date")) by reflexivity.
  assert (Hb : fromisoformat (replace_Z "not-a-date") = None) by reflexivity.
  destruct (@clock_read_once_per_parsed_due_date R sheets_template_example
              assignments_example 0%nat) as (Hsheets & _ & _ & _ & Hbad).
  split; [exact Hs|]. split; [exact Hb|].
  split; [exact (Hbad a "not-a-date" Hs Hb) | exact Hsheets].
Defined.

Lemma unparsed_due_date_is_never_urgent_witness :
  let R := frozen_runtime new_year_2024 in
  let a := [("assignment_id", VStr "A7"); ("due_date", VNone);
            ("priority", VStr "critical")] in
  due_date_parses a = false /\
  todo_loop [a] (mktodo [] [] []) 0%nat = (mktodo [] [todo_task a] [], 0%nat).
Proof.
  intros R a.
  assert (H : due_date_parses a = false) by reflexivity.
  split; [exact H|].
  exact (proj1 (@unparsed_due_date_is_never_urgent R a [] (mktodo [] [] []) []
                  0%nat H)).
Defined.

(** ** Urgency and time *)

Section Urgency.

Context {R : Runtime}.

Lemma days_at_most_3_iff (delta : Z) :
  (timedelta_days delta <=? 3) = (delta <? 4 * us_per_day).
Proof.
  unfold timedelta_days, us_per_day.
  pose proof (Z.div_mod delta 86400000000 ltac:(lia)) as Hdm.
  pose proof (Z.mod_pos_bound delta 86400000000 ltac:(lia)) as Hm.
  destruct (Z.leb_spec (delta / 86400000000) 3);
    destruct (Z.ltb_spec delta (4 * 86400000000)); auto; lia.
Qed.

(** X8: an assignment whose due date parses is urgent exactly when the due
    date is less than 4 whole days after now, any time in the past
    included; from 4 days on it is important or regular by its priority. *)
Theorem urgent_iff_less_than_four_days_ahead
  (a : dict) (s : string) (due_date : datetime)
  (rest : list dict) (acc : todo_lists) (n : nat) :
  get a "due_date" VNone = VStr s -> s <> "" ->
  fromisoformat (replace_Z s) = Some due_date ->
  let delta := wall due_date - wall (datetime_now n (tzinfo due_date)) in
  todo_loop (a :: rest) acc n
  = todo_loop rest
      (add_task
         (if delta <? 4 * us_per_day then Urgent
          else if in_critical_high (get a "priority" VNone)
               then Important else Regular)
         (todo_task a) acc) (S n).
Proof.
  intros Hdue Hs Hparse delta.
  rewrite todo_loop_cons, Hdue, (days_of_parsed n Hs Hparse).
  unfold bucket_rule. fold delta. now rewrite days_at_most_3_iff.
Qed.

(** X9: at one reading of the clock, a due date that is not later gives
    days until due that are not more, so that whatever is due no later than
    an urgent assignment is urgent too; and for a due date with a UTC
    offset, a later reading of the clock never gives more days. *)
Theorem days_until_due_monotone
  (s1 s2 : string) (d1 d2 : datetime) (n m : nat) :
  s1 <> "" -> s2 <> "" ->
  fromisoformat (replace_Z s1) = Some d1 ->
  fromisoformat (replace_Z s2) = Some d2 ->
  exists k1 k2,
    fst (_calculate_days_until_due (VStr s1) n) = Some k1 /\
    fst (_calculate_days_until_due (VStr s2) n) = Some k2 /\
    (tzinfo d1 = tzinfo d2 -> wall d1 <= wall d2 ->
     k1 <= k2 /\ (k2 <= 3 -> k1 <= 3)) /\
    (forall off k1',
       tzinfo d1 = Some off -> clock n <= clock m ->
       fst (_calculate_days_until_due (VStr s1) m) = Some k1' -> k1' <= k1).
Proof.
  intros Hs1 Hs2 Hd1 Hd2.
  eexists _, _.
  rewrite (days_of_parsed n Hs1 Hd1), (days_of_parsed n Hs2 Hd2).
  split; [reflexivity|]. split; [reflexivity|]. split.
  - intros Htz Hle. rewrite Htz.
    assert (Hmono : timedelta_days (wall d1 - wall (datetime_now n (tzinfo d2)))
                    <= timedelta_days (wall d2 - wall (datetime_now n (tzinfo d2)))).
    { unfold timedelta_days, us_per_day. apply Z.div_le_mono; lia. }
    split; [exact Hmono | lia].
  - intros off k1' Htz Hclock. rewrite (days_of_parsed m Hs1 Hd1). simpl.
    intros H. injection H as <-.
    unfold datetime_now. rewrite Htz. simpl.
    unfold timedelta_days, us_per_day. apply Z.div_le_mono; lia.
Qed.

Lemma replace_Z_app (s t : string) :
  replace_Z (s ++ t) = replace_Z s ++ replace_Z t.
Proof.
  induction s as [|c s IH]; simpl; [reflexivity|].
  rewrite IH. now destruct (Ascii.eqb c "Z"%char).
Qed.

Lemma replace_Z_idempotent (s : string) : replace_Z (replace_Z s) = replace_Z s.
Proof.
  induction s as [|c s IH]; simpl; [reflexivity|].
  destruct (Ascii.eqb c "Z"%char) eqn:E.
  - change (String "+" (String "0" (String "0" (String ":" (String "0"
              (String "0" (replace_Z s)))))))
      with ("+00:00" ++ replace_Z s).
    rewrite replace_Z_app, IH. reflexivity.
  - simpl. rewrite E. now rewrite IH.
Qed.

Lemma replace_Z_empty (s : string) :
  String.eqb (replace_Z s) "" = String.eqb s "".
Proof.
  destruct s as [|c s]; simpl; [reflexivity|].
  now destruct (Ascii.eqb c "Z"%char).
Qed.

(** X10: writing the UTC marker "Z" or the offset "+00:00" is the same to
    [_calculate_days_until_due]: on a string and on that string with every
    Z replaced it gives the same result at the same reading of the clock.
    Every Z is replaced, wherever it stands, and no Z is left. *)
Theorem days_until_due_same_for_Z_and_utc_offset (s : string) (n : nat) :
  _calculate_days_until_due (VStr (replace_Z s)) n
    = _calculate_days_until_due (VStr s) n /\
  replace_Z (replace_Z s) = replace_Z s /\
  (forall before after,
     replace_Z (before ++ "Z" ++ after)
     = replace_Z before ++ "+00:00" ++ replace_Z after) /\
  (forall i, String.get i (replace_Z s) <> Some "Z"%char).
Proof.
  split; [|split; [apply replace_Z_idempotent|split]].
  - unfold _calculate_days_until_due. simpl. rewrite replace_Z_empty.
    destruct (String.eqb s ""); simpl; [reflexivity|].
    unfold bind, days_until_due_try. now rewrite replace_Z_idempotent.
  - intros before after. now rewrite !replace_Z_app.
  - induction s as [|c s IH]; intros i; simpl.
    + now destruct i.
    + destruct (Ascii.eqb c "Z"%char) eqn:E.
      * do 6 (destruct i as [|i]; [simpl; discriminate|]). simpl. apply IH.
      * destruct i as [|i]; simpl; [|apply IH].
        intros H. injection H as ->. discriminate.
Qed.

End Urgency.

Lemma urgent_iff_less_than_four_days_ahead_witness :
  let R := frozen_runtime new_year_2024 in
  let a := [("assignment_id", VStr "A8"); ("due_date", VStr "2024-01-04T23:59:59Z");
            ("priority", VStr "low")] in
  let due_date := mkdatetime ((ymd2ord 2024 1 4 - 1) * us_per_day
                              + us_of_hms 23 59 59 0) (Some 0) in
  get a "due_date" VNone = VStr "2024-01-04T23:59:59Z" /\
  fromisoformat (replace_Z "2024-01-04T23:59:59Z") = Some due_date /\
  todo_loop [a] (mktodo [] [] []) 0%nat = (mktodo [todo_task a] [] [], 1%nat).
Proof.
  intros R a due_date.
  assert (Hd : get a "due_date" VNone = VStr "2024-01-04T23:59:59Z")
    by reflexivity.
  assert (Hs : "2024-01-04T23:59:59Z" <> "") by discriminate.
  assert (Hp : fromisoformat (replace_Z "2024-01-04T23:59:59Z") = Some due_date)
    by (vm_compute; reflexivity).
  split; [exact Hd|]. split; [exact Hp|].
  exact (@urgent_iff_less_than_four_days_ahead R a _ due_date []
           (mktodo [] [] []) 0%nat Hd Hs Hp).
Defined.

Lemma days_until_due_monotone_witness :
  let R := frozen_runtime new_year_2024 in
  let s1 := "2024-01-03T00:00:00Z" in
  let s2 := "2024-01-09T00:00:00Z" in
  let d1 := mkdatetime ((ymd2ord 2024 1 3 - 1) * us_per_day) (Some 0) in
  let d2 := mkdatetime ((ymd2ord 2024 1 9 - 1) * us_per_day) (Some 0) in
  fromisoformat (replace_Z s1) = Some d1 /\
  fromisoformat (replace_Z s2) = Some d2 /\
  exists k1 k2,
    fst (_calculate_days_until_due (VStr s1) 0%nat) = Some k1 /\
    fst (_calculate_days_until_due (VStr s2) 0%nat) = Some k2 /\
    k1 <= k2.
Proof.
  intros R s1 s2 d1 d2.
  assert (H1 : fromisoformat (replace_Z s1) = Some d1) by (vm_compute; reflexivity).
  assert (H2 : fromisoformat (replace_Z s2) = Some d2) by (vm_compute; reflexivity).
  assert (N1 : s1 <> "") by discriminate.
  assert (N2 : s2 <> "") by discriminate.
  assert (Htz : tzinfo d1 = tzinfo d2) by (vm_compute; reflexivity).
  assert (Hle : wall d1 <= wall d2) by (vm_compute; discriminate).
  split; [exact H1|]. split; [exact H2|].
  destruct (@days_until_due_monotone R s1 s2 d1 d2 0%nat 0%nat N1 N2 H1 H2)
    as (k1 & k2 & E1 & E2 & Hmono & _).
  exists k1, k2. split; [exact E1|]. split; [exact E2|].
  exact (proj1 (Hmono Htz Hle)).
Defined.

Lemma days_until_due_same_for_Z_and_utc_offset_witness :
  let R := frozen_runtime new_year_2024 in
  _calculate_days_until_due (VStr "2024-01-04T00:00:00+00:00") 0%nat
  = _calculate_days_until_due (VStr "2024-01-04T00:00:00Z") 0%nat.
Proof.
  intros R.
  exact (proj1 (@days_until_due_same_for_Z_and_utc_offset R
                  "2024-01-04T00:00:00Z" 0%nat)).
Defined.

(** ** Composing the exports *)

Lemma list_put_twice (l : list value) (i : nat) (v w : value) :
  list_put (list_put l i v) i w = list_put l i w.
Proof.
  revert i. induction l as [|y rest IH]; intros [|i]; simpl; auto.
  now rewrite IH.
Qed.

Section Composition.

Context {R : Runtime}.

Lemma sheets_loop_app (before after : list dict) :
  forall rows n,
    sheets_loop (before ++ after) rows n =
    let (rows1, n1) := sheets_loop before rows n in sheets_loop after rows1 n1.
Proof.
  induction before as [|a rest IH]; intros rows n.
  - reflexivity.
  - simpl. unfold bind.
    destruct (_calculate_days_until_due (get a "due_date" VNone) n) as [days n1].
    apply IH.
Qed.

(** X11: the exports of two lists of assignments one after the other are
    the exports of the first followed by the exports of the second, the
    second taken from the reading of the clock the first has reached: so for
    the rows, for the pages, and for each of the three to-do lists. *)
Theorem exports_of_concatenation (first second : list dict) (n : nat) :
  fst (sheets_loop (first ++ second) [] n)
  = (fst (sheets_loop first [] n)
       ++ fst (sheets_loop second [] (snd (sheets_loop first [] n))))%list /\
  notion_loop (first ++ second) []
  = (notion_loop first [] ++ notion_loop second [])%list /\
  (forall b,
     bucket_list b (fst (todo_loop (first ++ second) (mktodo [] [] []) n))
     = (bucket_list b (fst (todo_loop first (mktodo [] [] []) n))
          ++ bucket_list b
               (fst (todo_loop second (mktodo [] [] [])
                       (snd (todo_loop first (mktodo [] [] []) n)))))%list).
Proof.
  split; [|split].
  - rewrite sheets_loop_app.
    destruct (sheets_loop first [] n) as [rows1 n1]. simpl.
    now rewrite (sheets_loop_rows second rows1 n1), (sheets_loop_rows second [] n1).
  - rewrite !notion_loop_pages. simpl. apply map_app.
  - intros b. rewrite todo_loop_app.
    destruct (todo_loop first (mktodo [] [] []) n) as [lists n1]. simpl.
    rewrite (todo_loop_lists second lists n1).
    rewrite (todo_loop_lists second (mktodo [] [] []) n1).
    now destruct b.
Qed.

Lemma sheets_ok_iff (template : value) (assignments : list dict) (n : nat) :
  (exists out, fst (transform_to_sheets_format template assignments n) = Ok out)
  <-> has_objects template "sheet_tabs" 1.
Proof.
  split.
  - intros (out & Hout). apply sheets_output in Hout.
    destruct Hout as (d & l & c & -> & HK & H0 & _).
    exists d, l. split; [reflexivity|]. split; [exact HK|].
    destruct l as [|x l]; [discriminate|]. split; [simpl; lia|].
    intros i Hi. assert (i = 0%nat) as -> by lia. eauto.
  - intros (d & l & -> & HK & _ & Hobj).
    destruct (Hobj 0%nat ltac:(lia)) as (c & Hc).
    rewrite transform_to_sheets_format_result.
    eexists. apply assign_slot_ok. eauto 8.
Qed.

Lemma notion_ok_iff (template : value) (assignments : list dict) (n : nat) :
  (exists out, fst (transform_to_notion_format template assignments n) = Ok out)
  <-> exists d, template = VDict d.
Proof.
  split.
  - intros (out & Hout). apply notion_output in Hout.
    destruct Hout as (d & -> & _). eauto.
  - intros (d & ->). eexists. reflexivity.
Qed.

Lemma todo_ok_iff (template : value) (assignments : list dict) (n : nat) :
  (exists out, fst (transform_to_todo_format template assignments n) = Ok out)
  <-> has_objects template "categories" 3.
Proof.
  split.
  - intros (out & Hout). apply todo_output in Hout.
    destruct Hout as (d & l & c0 & c1 & c2 & -> & HK & H0 & H1 & H2 & _).
    exists d, l. split; [reflexivity|]. split; [exact HK|].
    destruct l as [|x0 [|x1 [|x2 l]]]; try discriminate.
    split; [simpl; lia|].
    intros [|[|[|i]]] Hi; try lia; eauto.
  - intros (d & l & -> & HK & _ & Hobj).
    destruct (Hobj 0%nat ltac:(lia)) as (c0 & Hc0).
    destruct (Hobj 1%nat ltac:(lia)) as (c1 & Hc1).
    destruct (Hobj 2%nat ltac:(lia)) as (c2 & Hc2).
    rewrite transform_to_todo_format_result. cbv zeta.
    eexists. apply assign_three_slots_ok.
    exists d, l, c0, c1, c2. repeat split; eauto.
Qed.

(** X12: what each export needs of its template, exactly.  The sheets export
    produces an output if and only if the template is an object whose
    [sheet_tabs] is a list with an object first; the to-do export, if and
    only if its [categories] is a list whose first three elements are
    objects; the notion export, if and only if the template is an object,
    with or without a key [pages].  The assignments and the clock have no
    part in it. *)
Theorem exports_succeed_exactly_on_shaped_templates
  (template : value) (assignments : list dict) (n : nat) :
  ((exists out, fst (transform_to_sheets_format template assignments n) = Ok out)
   <-> has_objects template "sheet_tabs" 1) /\
  ((exists out, fst (transform_to_notion_format template assignments n) = Ok out)
   <-> exists d, template = VDict d) /\
  ((exists out, fst (transform_to_todo_format template assignments n) = Ok out)
   <-> has_objects template "categories" 3).
Proof.
  split; [apply sheets_ok_iff|]. split; [apply notion_ok_iff | apply todo_ok_iff].
Qed.

(** X13: [export_all_formats] runs the three exports in the order sheets,
    notion, to-do and stops at the first that raises: the exception is that
    export's, and the exports after it are not run, so that the clock stays
    at the reading the failing export reached.  It produces the three
    documents if and only if the three templates have the shape their export
    needs, and the documents are then those of the three exports. *)
Theorem export_all_formats_stops_at_first_failure
  (sheets_template notion_template todo_template : value)
  (assignments : list dict) (n : nat) :
  let run := export_all_formats sheets_template notion_template todo_template
               assignments n in
  let n1 := snd (transform_to_sheets_format sheets_template assignments n) in
  (forall e,
     fst (transform_to_sheets_format sheets_template assignments n) = Raise e ->
     run = (Raise e, n1)) /\
  (forall sheets e,
     fst (transform_to_sheets_format sheets_template assignments n) = Ok sheets ->
     fst (transform_to_notion_format notion_template assignments n1) = Raise e ->
     run = (Raise e, n1)) /\
  (forall sheets notion e,
     fst (transform_to_sheets_format sheets_template assignments n) = Ok sheets ->
     fst (transform_to_notion_format notion_template assignments n1) = Ok notion ->
     fst (transform_to_todo_format todo_template assignments n1) = Raise e ->
     fst run = Raise e) /\
  (forall sheets notion todo,
     fst run = Ok (sheets, notion, todo) <->
     fst (transform_to_sheets_format sheets_template assignments n) = Ok sheets /\
     fst (transform_to_notion_format notion_template assignments n1) = Ok notion /\
     fst (transform_to_todo_format todo_template assignments n1) = Ok todo) /\
  ((exists documents, fst run = Ok documents) <->
   has_objects sheets_template "sheet_tabs" 1 /\
   (exists d, notion_template = VDict d) /\
   has_objects todo_template "categories" 3).
Proof.
  intros run n1.
  assert (Hrun : run
            = match transform_to_sheets_format sheets_template assignments n with
              | (Raise e, k) => (Raise e, k)
              | (Ok sheets, k) =>
                  match fst (transform_to_notion_format notion_template
                               assignments k) with
                  | Raise e => (Raise e, k)
                  | Ok notion =>
                      match transform_to_todo_format todo_template assignments k
                      with
                      | (Raise e, k') => (Raise e, k')
                      | (Ok todo, k') => (Ok (sheets, notion, todo), k')
                      end
                  end
              end).
  { unfold run, export_all_formats, bind.
    destruct (transform_to_sheets_format sheets_template assignments n)
      as [[sheets|e] k]; [|reflexivity].
    unfold transform_to_notion_format at 1 2. unfold ret at 1 4. cbn [fst].
    destruct (setitem notion_template "pages" (VList (notion_loop assignments [])))
      as [notion|e]; [|reflexivity].
    now destruct (transform_to_todo_format todo_template assignments k)
      as [[todo|e] k']. }
  rewrite Hrun. unfold n1. clear Hrun run n1.
  destruct (transform_to_sheets_format sheets_template assignments n)
    as [[sheets|e] k] eqn:Hs; cbn [fst snd].
  - destruct (fst (transform_to_notion_format notion_template assignments k))
      as [notion|e] eqn:Hp.
    + destruct (transform_to_todo_format todo_template assignments k)
        as [[todo|e] k'] eqn:Ht; cbn [fst snd].
      * split; [discriminate|]. split; [discriminate|].
        split; [discriminate|]. split.
        -- intros s p t. split.
           ++ intros H. injection H as <- <- <-. auto.
           ++ intros (H1 & H2 & H3).
              injection H1 as <-. injection H2 as <-. injection H3 as <-.
              reflexivity.
        -- split; [intros _|eauto]. split; [|split].
           ++ apply (sheets_ok_iff sheets_template assignments n).
              rewrite Hs. eexists. reflexivity.
           ++ apply (notion_ok_iff notion_template assignments k).
              exists notion. exact Hp.
           ++ apply (todo_ok_iff todo_template assignments k).
              rewrite Ht. eexists. reflexivity.
      * split; [discriminate|]. split; [discriminate|]. split.
        -- intros s p e0 _ _ H. injection H as <-. reflexivity.
        -- split.
           ++ intros s p t. split; [discriminate|].
              intros (_ & _ & H). discriminate.
           ++ split; [intros (x & H); discriminate|].
              intros (_ & _ & Hobj).
              apply (todo_ok_iff todo_template assignments k) in Hobj.
              rewrite Ht in Hobj. destruct Hobj as (x & H). discriminate.
    + split; [discriminate|]. split.
      * intros s e0 _ H. injection H as <-. reflexivity.
      * split; [intros s p e0 _ H; discriminate|]. split.
        -- intros s p t. split; [discriminate|].
           intros (_ & H & _). discriminate.
        -- split; [intros (x & H); discriminate|].
           intros (_ & Hobj & _).
           apply (notion_ok_iff notion_template assignments k) in Hobj.
           rewrite Hp in Hobj. destruct Hobj as (x & H). discriminate.
  - split.
    + intros e0 H. injection H as <-. reflexivity.
    + split; [intros s e0 H; discriminate|].
      split; [intros s p e0 H; discriminate|]. split.
      * intros s p t. split; [discriminate|]. intros (H & _). discriminate.
      * split; [intros (x & H); discriminate|].
        intros (Hobj & _).
        apply (sheets_ok_iff sheets_template assignments n) in Hobj.
        rewrite Hs in Hobj. destruct Hobj as (x & H). discriminate.
Qed.

End Composition.

(** ** Exporting over an earlier export *)

Section Overwrite.

Context {R : Runtime}.

(** X14: an export replaces what its slot held; it does not add to it.
    Exporting over the output of an earlier export gives the same document
    as exporting over the template that export started from, whatever the
    assignments of the two exports and the readings of the clock: nothing of
    the earlier rows, pages or tasks is left. *)
Theorem export_replaces_earlier_slot_content
  (template out : value) (assignments again : list dict) (n m : nat) :
  (fst (transform_to_sheets_format template assignments n) = Ok out ->
   fst (transform_to_sheets_format out again m)
   = fst (transform_to_sheets_format template again m)) /\
  (fst (transform_to_notion_format template assignments n) = Ok out ->
   fst (transform_to_notion_format out again m)
   = fst (transform_to_notion_format template again m)) /\
  (fst (transform_to_todo_format template assignments n) = Ok out ->
   fst (transform_to_todo_format out again m)
   = fst (transform_to_todo_format template again m)).
Proof.
  split; [|split].
  - intros Hout. apply sheets_output in Hout.
    destruct Hout as (d & l & c & -> & HK & H0 & ->).
    rewrite !transform_to_sheets_format_result.
    set (rows := VList (fst (sheets_loop again [] m))).
    transitivity
      (Ok (VDict (dict_set d "sheet_tabs"
                    (VList (list_put l 0 (VDict (dict_set c "rows" rows))))))).
    + apply assign_slot_ok. eexists _, _, _.
      split; [reflexivity|]. split; [apply lookup_dict_set_same|].
      split; [eapply nth_list_put_same; eauto|].
      now rewrite !dict_set_twice, list_put_twice.
    + symmetry. apply assign_slot_ok. eauto 8.
  - intros Hout. apply notion_output in Hout.
    destruct Hout as (d & -> & ->).
    unfold transform_to_notion_format, ret. simpl.
    now rewrite dict_set_twice.
  - intros Hout. apply todo_output in Hout.
    destruct Hout as (d & l & c0 & c1 & c2 & -> & HK & H0 & H1 & H2 & ->).
    rewrite !transform_to_todo_format_result. cbv zeta.
    set (lists := fst (todo_loop again (mktodo [] [] []) m)).
    set (before := fst (todo_loop assignments (mktodo [] [] []) n)).
    transitivity
      (Ok (VDict (dict_set d "categories"
                    (VList (filled_categories l c0 c1 c2
                              (VList (urgent_important lists))
                              (VList (important_not_urgent lists))
                              (VList (regular lists))))))).
    + apply assign_three_slots_ok.
      destruct (@filled_categories_nth l c0 c1 c2
                  (VList (urgent_important before))
                  (VList (important_not_urgent before))
                  (VList (regular before)) H0 H1 H2) as (F0 & F1 & F2).
      eexists _, _, _, _, _.
      split; [reflexivity|]. split; [apply lookup_dict_set_same|].
      split; [exact F0|]. split; [exact F1|]. split; [exact F2|].
      rewrite dict_set_twice.
      destruct l as [|x0 [|x1 [|x2 others]]]; try discriminate.
      unfold filled_categories. simpl. now rewrite !dict_set_twice.
    + symmetry. apply assign_three_slots_ok.
      exists d, l, c0, c1, c2. repeat split; auto.
Qed.

(** X15: a field that is present with the value null is not defaulted: it
    is shown as null in its own sheet column, in its notion property, in
    the description paragraph and in the task, whose description, due_date,
    priority, url and tags show the null; a null priority is not "medium"
    and never makes a task important; null estimated hours are shown as
    "None hours"; a null due date gives no days until due. *)
Theorem null_fields_are_not_defaulted (a : dict) (days : option Z) :
  (forall j column,
     nth_error sheet_columns j = Some column -> column <> "days_until_due" ->
     lookup column a = Some VNone ->
     nth_error (sheet_row a days) j = Some VNone) /\
  (forall property key default,
     In (property, key, default) notion_properties ->
     lookup key a = Some VNone ->
     exists props,
       field (notion_page a) "properties" = Some (VDict props) /\
       lookup property props = Some VNone) /\
  (lookup "description" a = Some VNone ->
   field (notion_page a) "content" = Some (notion_content VNone)) /\
  (forall task_field key default,
     In (task_field, key, default) todo_fields ->
     lookup key a = Some VNone ->
     field (todo_task a) task_field = Some VNone) /\
  (lookup "type" a = Some VNone ->
   field (todo_task a) "tags"
   = Some (VList [VNone; get a "class_code" (VStr "")])) /\
  (lookup "class_code" a = Some VNone ->
   field (todo_task a) "tags"
   = Some (VList [get a "type" (VStr ""); VNone])) /\
  (lookup "priority" a = Some VNone ->
   field (todo_task a) "priority" = Some VNone /\
   in_critical_high (get a "priority" VNone) = false) /\
  (lookup "estimated_hours" a = Some VNone ->
   field (todo_task a) "estimated_time" = Some (VStr "None hours")) /\
  (lookup "due_date" a = Some VNone ->
   due_date_parses a = false /\
   forall n, _calculate_days_until_due (get a "due_date" VNone) n = (None, n)).
Proof.
  split; [|split; [|split; [|split; [|split; [|split; [|split; [|split]]]]]]].
  - intros j column Hj Hcol Hnull.
    change (sheet_row a days) with (map (column_value a days) sheet_columns).
    rewrite nth_error_map, Hj. simpl. f_equal. unfold column_value.
    destruct (String.eqb column "days_until_due") eqn:E.
    + apply String.eqb_eq in E. contradiction.
    + unfold get. now rewrite Hnull.
  - intros property key default Hin Hnull.
    destruct (notion_property_of a Hin) as (props & Hprops & Hlook).
    exists props. split; [exact Hprops|].
    rewrite Hlook. unfold get. now rewrite Hnull.
  - intros Hnull. simpl. unfold get. now rewrite Hnull.
  - intros task_field key default Hin Hnull.
    in_cases Hin ltac:(simpl; unfold get; rewrite Hnull; reflexivity).
  - intros Hnull. simpl. unfold get at 1. rewrite Hnull. reflexivity.
  - intros Hnull. simpl. unfold get at 2. rewrite Hnull. reflexivity.
  - intros Hnull. simpl. unfold get. rewrite Hnull. split; reflexivity.
  - intros Hnull. simpl. unfold get. rewrite Hnull. reflexivity.
  - intros Hnull. unfold due_date_parses, get. rewrite Hnull.
    split; reflexivity.
Qed.

(** X16: the synthesized identifiers tell apart assignments whose
    identifiers are different strings, for pages and for tasks; but an
    identifier that is the number [z] gives the same page_id as the string
    of its decimal digits, and an assignment without identifier gets
    "page_None" and "task_None", as one whose identifier is the string
    "None" does. *)
Theorem synthesized_identifiers (a b : dict) :
  (forall s t,
     lookup "assignment_id" a = Some (VStr s) ->
     lookup "assignment_id" b = Some (VStr t) ->
     (field (notion_page a) "page_id" = field (notion_page b) "page_id" -> s = t) /\
     (field (todo_task a) "task_id" = field (todo_task b) "task_id" -> s = t)) /\
  (forall z,
     lookup "assignment_id" a = Some (VInt z) ->
     lookup "assignment_id" b
       = Some (VStr (NilZero.string_of_int (Z.to_int z))) ->
     field (notion_page a) "page_id" = field (notion_page b) "page_id" /\
     field (todo_task a) "task_id" = field (todo_task b) "task_id") /\
  (lookup "assignment_id" a = None ->
   field (notion_page a) "page_id" = Some (VStr "page_None") /\
   field (todo_task a) "task_id" = Some (VStr "task_None") /\
   (lookup "assignment_id" b = Some (VStr "None") ->
    field (notion_page a) "page_id" = field (notion_page b) "page_id")).
Proof.
  split; [|split].
  - intros s t Hs Ht. simpl. unfold get. rewrite Hs, Ht. simpl.
    split; intros H; now injection H.
  - intros z Hz Hb. simpl. unfold get. rewrite Hz, Hb. split; reflexivity.
  - intros Ha. simpl. unfold get. rewrite Ha. simpl.
    split; [reflexivity|]. split; [reflexivity|].
    intros Hb. now rewrite Hb.
Qed.

End Overwrite.

Lemma exports_succeed_exactly_on_shaped_templates_witness :
  let R := frozen_runtime new_year_2024 in
  let bare := VDict [("database_name", VStr "Assignments")] in
  (exists d, bare = VDict d) /\
  exists out, fst (transform_to_notion_format bare assignments_example 0%nat) = Ok out.
Proof.
  intros R bare.
  assert (H : exists d, bare = VDict d) by (eexists; reflexivity).
  split; [exact H|].
  exact (proj2 (proj1 (proj2 (@exports_succeed_exactly_on_shaped_templates R bare
                                assignments_example 0%nat))) H).
Defined.

Lemma export_all_formats_stops_at_first_failure_witness :
  let R := frozen_runtime new_year_2024 in
  let sheets := VDict [("sheet_tabs", VList [])] in
  fst (transform_to_sheets_format sheets assignments_example 0%nat)
    = Raise IndexError /\
  export_all_formats sheets notion_template_example todo_template_example
    assignments_example 0%nat
  = (Raise IndexError,
     snd (transform_to_sheets_format sheets assignments_example 0%nat)).
Proof.
  intros R sheets.
  assert (H : fst (transform_to_sheets_format sheets assignments_example 0%nat)
              = Raise IndexError) by (vm_compute; reflexivity).
  split; [exact H|].
  exact (proj1 (@export_all_formats_stops_at_first_failure R sheets
                  notion_template_example todo_template_example
                  assignments_example 0%nat) IndexError H).
Defined.

Lemma export_replaces_earlier_slot_content_witness :
  let R := frozen_runtime new_year_2024 in
  let out := VDict
    [ ("database_name", VStr "Assignments");
      ("pages", VList (map notion_page assignments_example));
      ("views", VList [VStr "Calendar"; VStr "Board"]) ] in
  fst (transform_to_notion_format notion_template_example assignments_example 0%nat)
    = Ok out /\
  fst (transform_to_notion_format out [] 5%nat)
  = fst (transform_to_notion_format notion_template_example [] 5%nat).
Proof.
  intros R out.
  assert (H : fst (transform_to_notion_format notion_template_example
                     assignments_example 0%nat) = Ok out) by reflexivity.
  split; [exact H|].
  exact (proj1 (proj2 (@export_replaces_earlier_slot_content R
                         notion_template_example out assignments_example []
                         0%nat 5%nat)) H).
Defined.

Lemma null_fields_are_not_defaulted_witness :
  let R := frozen_runtime new_year_2024 in
  let a := [("assignment_id", VStr "A5"); ("description", VNone);
            ("priority", VNone); ("url", VNone)] in
  lookup "description" a = Some VNone /\
  field (todo_task a) "description" = Some VNone /\
  nth_error sheet_columns 12 = Some "url" /\
  lookup "url" a = Some VNone /\
  nth_error (sheet_row a None) 12 = Some VNone.
Proof.
  intros R a.
  assert (Hd : lookup "description" a = Some VNone) by reflexivity.
  assert (Hc : nth_error sheet_columns 12 = Some "url") by reflexivity.
  assert (Hu : lookup "url" a = Some VNone) by reflexivity.
  assert (Hne : "url" <> "days_until_due") by discriminate.
  destruct (@null_fields_are_not_defaulted R a None)
    as (Hsheet & _ & _ & Htodo & _).
  split; [exact Hd|]. split.
  - apply (Htodo "description" "description" (VStr "")); [|exact Hd].
    simpl. auto.
  - split; [exact Hc|]. split; [exact Hu|].
    exact (Hsheet 12%nat "url" Hc Hne Hu).
Defined.

Lemma synthesized_identifiers_witness :
  let R := frozen_runtime new_year_2024 in
  let a := [("assignment_id", VInt 7)] in
  let b := [("assignment_id", VStr "7")] in
  lookup "assignment_id" a = Some (VInt 7) /\
  lookup "assignment_id" b = Some (VStr (NilZero.string_of_int (Z.to_int 7))) /\
  field (notion_page a) "page_id" = field (notion_page b) "page_id".
Proof.
  intros R a b.
  assert (Ha : lookup "assignment_id" a = Some (VInt 7)) by reflexivity.
  assert (Hb : lookup "assignment_id" b
               = Some (VStr (NilZero.string_of_int (Z.to_int 7)))) by reflexivity.
  split; [exact Ha|]. split; [exact Hb|].
  exact (proj1 (proj1 (proj2 (@synthesized_identifiers R a b)) 7 Ha Hb)).
Defined.

(** ** The documents the exports produce *)

Section Documents.

Context {R : Runtime}.

(** Over a template with an object as first sheet tab, the sheets export
    produces a document, and its first tab has the rows of the loop. *)
Lemma sheets_export_reads (template : value) (assignments : list dict) (n : nat) :
  has_objects template "sheet_tabs" 1 ->
  exists out,
    transform_to_sheets_format template assignments n
      = (Ok out, snd (sheets_loop assignments [] n)) /\
    read_at out [SKey "sheet_tabs"; SIdx 0; SKey "rows"]
      = Ok (VList (fst (sheets_loop assignments [] n))).
Proof.
  intros Hshape.
  destruct (proj2 (sheets_ok_iff template assignments n) Hshape) as (out & Hout).
  exists out. split.
  - unfold transform_to_sheets_format, bind, ret in *.
    destruct (sheets_loop assignments [] n) as [rows n1]. simpl in *.
    now rewrite Hout.
  - apply sheets_output in Hout.
    destruct Hout as (d & l & c & _ & _ & H0 & ->).
    rewrite (@read_slot d "sheet_tabs" _ 0
               (dict_set c "rows" (VList (fst (sheets_loop assignments [] n))))
               "rows").
    + now rewrite lookup_dict_set_same.
    + eapply nth_list_put_same; eauto.
Qed.

(** Over a template that is an object, the notion export produces a
    document, and it has the pages of the loop. *)
Lemma notion_export_reads (template : value) (assignments : list dict) (n : nat) :
  (exists d, template = VDict d) ->
  exists out,
    transform_to_notion_format template assignments n = (Ok out, n) /\
    read_at out [SKey "pages"] = Ok (VList (notion_loop assignments [])).
Proof.
  intros (d & ->). eexists. split; [reflexivity|].
  simpl. now rewrite lookup_dict_set_same.
Qed.

(** Over a template whose first three categories are objects, the to-do
    export produces a document, and its categories hold the lists of the
    loop. *)
Lemma todo_export_reads (template : value) (assignments : list dict) (n : nat) :
  has_objects template "categories" 3 ->
  exists out,
    transform_to_todo_format template assignments n
      = (Ok out, snd (todo_loop assignments (mktodo [] [] []) n)) /\
    holds_tasks out (fst (todo_loop assignments (mktodo [] [] []) n)).
Proof.
  intros Hshape.
  destruct (proj2 (todo_ok_iff template assignments n) Hshape) as (out & Hout).
  exists out. split.
  - unfold transform_to_todo_format, bind, ret in *.
    destruct (todo_loop assignments (mktodo [] [] []) n) as [lists n1].
    simpl in *. now rewrite Hout.
  - apply todo_output in Hout.
    destruct Hout as (d & l & c0 & c1 & c2 & _ & _ & H0 & H1 & H2 & ->).
    set (lists := fst (todo_loop assignments (mktodo [] [] []) n)).
    destruct (@filled_categories_nth l c0 c1 c2
                (VList (urgent_important lists))
                (VList (important_not_urgent lists))
                (VList (regular lists)) H0 H1 H2) as (F0 & F1 & F2).
    unfold holds_tasks.
    rewrite (@read_slot d "categories" _ 0 _ "tasks" F0).
    rewrite (@read_slot d "categories" _ 1 _ "tasks" F1).
    rewrite (@read_slot d "categories" _ 2 _ "tasks" F2).
    now rewrite !lookup_dict_set_same.
Qed.

(** C1: the to-do export takes the assignments in input order and files the
    task of each under the first category whose rule matches: urgent
    (category 0) when its days until due are not none and at most 3;
    otherwise important (category 1) when its priority is "critical" or
    "high"; otherwise regular (category 2).  Over a template with its three
    categories, the document exported for the assignments before it holds
    the lists built so far, and the document exported for them and the
    assignment holds these lists with its task appended to the list of its
    bucket and to no other.  In particular 3 days out is urgent, 4 days out
    with priority "high" is important, and 10 days out with priority
    "medium" is regular. *)
Theorem todo_bucket_first_matching_rule
  (template : value) (before : list dict) (a : dict) (n n1 n2 : nat)
  (lists : todo_lists) (days : option Z) :
  todo_loop before (mktodo [] [] []) n = (lists, n1) ->
  _calculate_days_until_due (get a "due_date" VNone) n1 = (days, n2) ->
  let priority := get a "priority" VNone in
  let urgent := exists d, days = Some d /\ d <= 3 in
  let high := priority = VStr "critical" \/ priority = VStr "high" in
  let lands b :=
    todo_loop (before ++ [a]) (mktodo [] [] []) n
    = (add_task b (todo_task a) lists, n2) /\
    (has_objects template "categories" 3 ->
     exists out,
       transform_to_todo_format template (before ++ [a]) n = (Ok out, n2) /\
       holds_tasks out (add_task b (todo_task a) lists)) in
  (has_objects template "categories" 3 ->
   exists out,
     transform_to_todo_format template before n = (Ok out, n1) /\
     holds_tasks out lists) /\
  (urgent -> lands Urgent) /\
  (~ urgent -> high -> lands Important) /\
  (~ urgent -> ~ high -> lands Regular) /\
  (days = Some 3 -> lands Urgent) /\
  (days = Some 4 -> priority = VStr "high" -> lands Important) /\
  (days = Some 10 -> priority = VStr "medium" -> lands Regular).
Proof.
  intros Hbefore Hdays priority urgent high lands.
  assert (Hloop : todo_loop (before ++ [a]) (mktodo [] [] []) n
                  = (add_task (bucket_rule days priority) (todo_task a) lists, n2)).
  { rewrite todo_loop_app, Hbefore, todo_loop_cons, Hdays. reflexivity. }
  assert (Hstep : lands (bucket_rule days priority)).
  { split; [exact Hloop|]. intros Hshape.
    destruct (todo_export_reads (before ++ [a]) n Hshape) as (out & Hrun & Hread).
    rewrite Hloop in Hrun, Hread. eauto. }
  assert (Hu : urgent -> lands Urgent).
  { intros H. now rewrite <- (bucket_rule_urgent priority H). }
  assert (Hi : ~ urgent -> high -> lands Important).
  { intros Hn Hh. apply in_critical_high_iff in Hh.
    rewrite (bucket_rule_not_urgent priority Hn), Hh in Hstep. exact Hstep. }
  assert (Hr : ~ urgent -> ~ high -> lands Regular).
  { intros Hn Hh. rewrite (bucket_rule_not_urgent priority Hn) in Hstep.
    destruct (in_critical_high priority) eqn:E; [|exact Hstep].
    apply in_critical_high_iff in E. contradiction. }
  split.
  { intros Hshape.
    destruct (todo_export_reads before n Hshape) as (out & Hrun & Hread).
    rewrite Hbefore in Hrun, Hread. eauto. }
  split; [exact Hu|]. split; [exact Hi|]. split; [exact Hr|].
  split; [|split].
  - intros ->. apply Hu. exists 3. split; [reflexivity | lia].
  - intros -> Hp. apply Hi; [|now right].
    intros (d & E & Hd). injection E as <-. lia.
  - intros -> Hp. apply Hr.
    + intros (d & E & Hd). injection E as <-. lia.
    + unfold high. rewrite Hp. intros [H|H]; discriminate.
Qed.

(** C3: the sheets export makes one row per assignment, in input order; a
    row has the 13 columns id, class_code, class_name, title, type, status,
    assigned_date, due_date, days_until_due, priority, points_possible,
    estimated_hours, url in this order; the column of a field the assignment
    lacks is the empty string.  Over a template with a first sheet tab the
    export produces a document, and these rows are the rows of its first
    tab; so they are in every document the export produces. *)
Theorem sheets_one_row_per_assignment
  (template : value) (assignments : list dict) (n : nat) :
  let days := fst (days_trace assignments n) in
  let rows := fst (sheets_loop assignments [] n) in
  List.length rows = List.length assignments /\
  List.length sheet_columns = 13%nat /\
  (forall i a,
     nth_error assignments i = Some a ->
     exists d,
       nth_error days i = Some d /\
       nth_error rows i = Some (VList (sheet_row a d)) /\
       sheet_row a d = map (column_value a d) sheet_columns /\
       List.length (sheet_row a d) = 13%nat) /\
  (forall a d column,
     In column sheet_columns -> column <> "days_until_due" ->
     lookup column a = None -> column_value a d column = VStr "") /\
  (has_objects template "sheet_tabs" 1 ->
   exists out,
     transform_to_sheets_format template assignments n
       = (Ok out, snd (sheets_loop assignments [] n)) /\
     read_at out [SKey "sheet_tabs"; SIdx 0; SKey "rows"] = Ok (VList rows)) /\
  (forall out,
     fst (transform_to_sheets_format template assignments n) = Ok out ->
     read_at out [SKey "sheet_tabs"; SIdx 0; SKey "rows"] = Ok (VList rows)).
Proof.
  intros days rows.
  assert (Hrows : rows = map (fun p => VList (sheet_row (fst p) (snd p)))
                             (combine assignments days)).
  { unfold rows. now rewrite sheets_loop_rows. }
  assert (Hdays : List.length days = List.length assignments)
    by apply length_days_trace.
  split; [|split; [reflexivity|split; [|split; [|split]]]].
  - rewrite Hrows, length_map, length_combine. lia.
  - intros i a Hi.
    destruct (nth_error_combine assignments days i Hdays Hi) as (d & Hd & Hc).
    exists d. split; [exact Hd|]. split; [|split; reflexivity].
    rewrite Hrows, nth_error_map, Hc. reflexivity.
  - intros a d column _ Hcol Habs. unfold column_value.
    destruct (String.eqb column "days_until_due") eqn:E.
    + apply String.eqb_eq in E. contradiction.
    + unfold get. now rewrite Habs.
  - apply sheets_export_reads.
  - intros out Hout.
    assert (Hshape : has_objects template "sheet_tabs" 1).
    { apply (sheets_ok_iff template assignments n). eauto. }
    destruct (sheets_export_reads assignments n Hshape) as (out' & Hrun & Hread).
    rewrite Hrun in Hout. simpl in Hout. injection Hout as <-. exact Hread.
Qed.

(** C4: the notion export makes one page per assignment, in input order;
    the page_id of a page is "page_" followed by the identifier of its
    assignment, as a string shows itself and a number its decimal digits;
    of its properties, Points and Estimated Hours are 0 when the field is
    absent and every other one is the empty string; its content is the
    heading "Description", a paragraph of the description text, the heading
    "Checklist" and one unchecked to-do item.  Over a template that is an
    object the export produces a document, and these pages are its pages;
    so they are in every document the export produces. *)
Theorem notion_one_page_per_assignment
  (template : value) (assignments : list dict) (n : nat) :
  let pages := notion_loop assignments [] in
  List.length pages = List.length assignments /\
  (forall i a,
     nth_error assignments i = Some a ->
     nth_error pages i = Some (notion_page a)) /\
  (forall a,
     field (notion_page a) "page_id"
     = Some (VStr ("page_" ++ py_str (get a "assignment_id" VNone)))) /\
  (forall a id,
     lookup "assignment_id" a = Some (VStr id) ->
     field (notion_page a) "page_id" = Some (VStr ("page_" ++ id))) /\
  (forall a z,
     lookup "assignment_id" a = Some (VInt z) ->
     field (notion_page a) "page_id"
     = Some (VStr ("page_" ++ NilZero.string_of_int (Z.to_int z)))) /\
  (forall a property key default,
     In (property, key, default) notion_properties ->
     lookup key a = None ->
     exists props,
       field (notion_page a) "properties" = Some (VDict props) /\
       lookup property props = Some default /\
       default = (if String.eqb property "Points"
                     || String.eqb property "Estimated Hours"
                  then VInt 0 else VStr "")) /\
  (forall a,
     field (notion_page a) "content"
     = Some (notion_content (get a "description" (VStr ""))) /\
     (lookup "description" a = None ->
      field (notion_page a) "content" = Some (notion_content (VStr "")))) /\
  ((exists d, template = VDict d) ->
   exists out,
     transform_to_notion_format template assignments n = (Ok out, n) /\
     read_at out [SKey "pages"] = Ok (VList pages)) /\
  (forall out,
     fst (transform_to_notion_format template assignments n) = Ok out ->
     read_at out [SKey "pages"] = Ok (VList pages)).
Proof.
  intros pages.
  assert (Hpages : pages = map notion_page assignments).
  { unfold pages. now rewrite notion_loop_pages. }
  split; [|split; [|split; [|split; [|split; [|split; [|split; [|split]]]]]]].
  - now rewrite Hpages, length_map.
  - intros i a Hi. rewrite Hpages, nth_error_map, Hi. reflexivity.
  - intros a. reflexivity.
  - intros a id Hid. simpl. unfold get. rewrite Hid. reflexivity.
  - intros a z Hz. simpl. unfold get. rewrite Hz. reflexivity.
  - intros a property key default Hin Habs.
    destruct (notion_property_of a Hin) as (props & Hprops & Hlook).
    exists props. split; [exact Hprops|]. split.
    + rewrite Hlook. unfold get. now rewrite Habs.
    + in_cases Hin reflexivity.
  - intros a. split; [reflexivity|].
    intros Habs. simpl. unfold get. rewrite Habs. reflexivity.
  - apply notion_export_reads.
  - intros out Hout. apply notion_output in Hout.
    destruct Hout as (d & _ & ->). fold pages. simpl.
    now rewrite lookup_dict_set_same.
Qed.

End Documents.

Lemma todo_bucket_first_matching_rule_witness :
  let R := frozen_runtime new_year_2024 in
  let a1 := [("assignment_id", VStr "A1"); ("due_date", VStr "2024-01-02T12:00:00Z");
             ("priority", VStr "low")] in
  let a2 := [("assignment_id", VStr "A2"); ("due_date", VStr "2024-01-05T00:00:00Z");
             ("priority", VStr "high")] in
  has_objects todo_template_example "categories" 3 /\
  todo_loop [a1] (mktodo [] [] []) 0%nat = (mktodo [todo_task a1] [] [], 1%nat) /\
  _calculate_days_until_due (get a2 "due_date" VNone) 1%nat = (Some 4, 2%nat) /\
  exists out,
    transform_to_todo_format todo_template_example ([a1] ++ [a2]) 0%nat
      = (Ok out, 2%nat) /\
    holds_tasks out (mktodo [todo_task a1] [todo_task a2] []).
Proof.
  intros R a1 a2.
  assert (Hshape : has_objects todo_template_example "categories" 3).
  { eexists _, _. split; [reflexivity|]. split; [reflexivity|].
    split; [simpl; lia|].
    intros [|[|[|i]]] Hi; try lia; eexists; reflexivity. }
  assert (H0 : todo_loop [a1] (mktodo [] [] []) 0%nat
               = (mktodo [todo_task a1] [] [], 1%nat)) by (vm_compute; reflexivity).
  assert (H1 : _calculate_days_until_due (get a2 "due_date" VNone) 1%nat
               = (Some 4, 2%nat)) by (vm_compute; reflexivity).
  split; [exact Hshape|]. split; [exact H0|]. split; [exact H1|].
  destruct (@todo_bucket_first_matching_rule R todo_template_example [a1] a2
              0%nat 1%nat 2%nat (mktodo [todo_task a1] [] []) (Some 4) H0 H1)
    as (_ & _ & _ & _ & _ & H & _).
  exact (proj2 (H eq_refl eq_refl) Hshape).
Defined.

Lemma sheets_one_row_per_assignment_witness :
  let R := frozen_runtime new_year_2024 in
  has_objects sheets_template_example "sheet_tabs" 1 /\
  exists out,
    transform_to_sheets_format sheets_template_example assignments_example 0%nat
      = (Ok out, snd (sheets_loop assignments_example [] 0%nat)) /\
    read_at out [SKey "sheet_tabs"; SIdx 0; SKey "rows"]
      = Ok (VList (fst (sheets_loop assignments_example [] 0%nat))).
Proof.
  intros R.
  assert (Hshape : has_objects sheets_template_example "sheet_tabs" 1).
  { eexists _, _. split; [reflexivity|]. split; [reflexivity|].
    split; [simpl; lia|].
    intros [|i] Hi; try lia; eexists; reflexivity. }
  split; [exact Hshape|].
  destruct (@sheets_one_row_per_assignment R sheets_template_example
              assignments_example 0%nat) as (_ & _ & _ & _ & Hrun & _).
  exact (Hrun Hshape).
Defined.

Lemma notion_one_page_per_assignment_witness :
  let R := frozen_runtime new_year_2024 in
  (exists d, notion_template_example = VDict d) /\
  exists out,
    transform_to_notion_format notion_template_example assignments_example 0%nat
      = (Ok out, 0%nat) /\
    read_at out [SKey "pages"] = Ok (VList (notion_loop assignments_example [])).
Proof.
  intros R.
  assert (Hshape : exists d, notion_template_example = VDict d)
    by (eexists; reflexivity).
  split; [exact Hshape|].
  destruct (@notion_one_page_per_assignment R notion_template_example
              assignments_example 0%nat) as (_ & _ & _ & _ & _ & _ & _ & Hrun & _).
  exact (Hrun Hshape).
Defined.

(** ** The sheets and the to-do export side by side *)

Lemma select_of_rule (f : dict * option Z -> bucket) (b : bucket)
  (assignments : list dict) :
  forall days,
    select b (map f (combine assignments days)) assignments
    = map fst (filter (fun p => bucket_eqb (f p) b) (combine assignments days)).
Proof.
  induction assignments as [|a rest IH]; intros [|d days]; try reflexivity.
  simpl combine. simpl map at 1. rewrite select_cons. simpl filter.
  destruct (bucket_eqb (f (a, d)) b); simpl; now rewrite IH.
Qed.

Lemma bucket_rule_by_days (days : option Z) (priority : value) :
  bucket_eqb (bucket_rule days priority) Urgent = at_most_3 days /\
  bucket_eqb (bucket_rule days priority) Important
    = negb (at_most_3 days) && in_critical_high priority /\
  bucket_eqb (bucket_rule days priority) Regular
    = negb (at_most_3 days) && negb (in_critical_high priority).
Proof.
  unfold bucket_rule, at_most_3.
  destruct days as [d|]; [destruct (d <=? 3)|];
    destruct (in_critical_high priority); repeat split.
Qed.

(** X17: with the clock frozen, the sheets and the to-do export agree on
    every assignment.  Each row shows the days until due of its assignment,
    and the urgent list the to-do export builds is exactly the tasks of the
    assignments whose row shows days of at most 3, in their order; the
    important list is the tasks of those among the others whose priority is
    "critical" or "high", and the regular list the tasks of the rest.  Over
    templates of the right shape these rows and lists are what the two
    exported documents hold. *)
Theorem sheets_and_todo_agree_under_frozen_clock
  (R : Runtime) (sheets_template todo_template : value)
  (assignments : list dict) (n m : nat) :
  (forall j k, clock j = clock k) ->
  let shown := combine assignments (fst (days_trace assignments n)) in
  let rows := fst (sheets_loop assignments [] n) in
  let lists := fst (todo_loop assignments (mktodo [] [] []) m) in
  List.length shown = List.length assignments /\
  map fst shown = assignments /\
  rows = map (fun p => VList (sheet_row (fst p) (snd p))) shown /\
  urgent_important lists
  = map todo_task (map fst (filter (fun p => at_most_3 (snd p)) shown)) /\
  important_not_urgent lists
  = map todo_task
      (map fst (filter (fun p => negb (at_most_3 (snd p))
                                 && in_critical_high (get (fst p) "priority" VNone))
                       shown)) /\
  regular lists
  = map todo_task
      (map fst (filter (fun p => negb (at_most_3 (snd p))
                                 && negb (in_critical_high
                                            (get (fst p) "priority" VNone)))
                       shown)) /\
  (has_objects sheets_template "sheet_tabs" 1 ->
   has_objects todo_template "categories" 3 ->
   exists sheets todo,
     fst (transform_to_sheets_format sheets_template assignments n) = Ok sheets /\
     fst (transform_to_todo_format todo_template assignments m) = Ok todo /\
     read_at sheets [SKey "sheet_tabs"; SIdx 0; SKey "rows"] = Ok (VList rows) /\
     holds_tasks todo lists).
Proof.
  intros frozen shown rows lists.
  pose proof (length_days_trace assignments n) as Hlen.
  assert (Hlists : forall b,
            bucket_list b lists
            = map todo_task
                (map fst
                   (filter (fun p => bucket_eqb
                                       (bucket_rule (snd p)
                                          (get (fst p) "priority" VNone)) b)
                      shown))).
  { intros b. unfold lists, shown. rewrite todo_loop_lists. unfold labels_of.
    rewrite (days_trace_frozen frozen assignments m n).
    rewrite <- (select_of_rule
                  (fun p => bucket_rule (snd p) (get (fst p) "priority" VNone))
                  b assignments (fst (days_trace assignments n))).
    now destruct b. }
  split; [unfold shown; rewrite length_combine; lia|].
  split.
  { unfold shown. clear -Hlen.
    revert Hlen. generalize (fst (days_trace assignments n)).
    induction assignments as [|a rest IH]; intros [|d days] Hlen;
      simpl in *; try discriminate; [reflexivity|].
    f_equal. apply IH. now injection Hlen. }
  split; [unfold rows; now rewrite sheets_loop_rows|].
  split; [|split; [|split]].
  - etransitivity; [exact (Hlists Urgent)|]. do 2 f_equal. apply filter_ext.
    intros p. apply bucket_rule_by_days.
  - etransitivity; [exact (Hlists Important)|]. do 2 f_equal. apply filter_ext.
    intros p. apply bucket_rule_by_days.
  - etransitivity; [exact (Hlists Regular)|]. do 2 f_equal. apply filter_ext.
    intros p. apply bucket_rule_by_days.
  - intros Hs Ht.
    destruct (sheets_export_reads assignments n Hs) as (sheets & Hrun & Hread).
    destruct (todo_export_reads assignments m Ht) as (todo & Hrun' & Hread').
    exists sheets, todo. rewrite Hrun, Hrun'. auto.
Qed.

Lemma sheets_and_todo_agree_under_frozen_clock_witness :
  let R := frozen_runtime new_year_2024 in
  (forall j k : nat, clock j = clock k) /\
  has_objects sheets_template_example "sheet_tabs" 1 /\
  has_objects todo_template_example "categories" 3 /\
  exists sheets todo,
    fst (transform_to_sheets_format sheets_template_example assignments_example
           0%nat) = Ok sheets /\
    fst (transform_to_todo_format todo_template_example assignments_example
           7%nat) = Ok todo /\
    read_at sheets [SKey "sheet_tabs"; SIdx 0; SKey "rows"]
      = Ok (VList (fst (sheets_loop assignments_example [] 0%nat))) /\
    holds_tasks todo (fst (todo_loop assignments_example (mktodo [] [] []) 7%nat)).
Proof.
  intros R.
  assert (Hf : forall j k : nat, clock j = clock k) by (intros j k; reflexivity).
  assert (Hs : has_objects sheets_template_example "sheet_tabs" 1).
  { eexists _, _. split; [reflexivity|]. split; [reflexivity|].
    split; [simpl; lia|].
    intros [|i] Hi; try lia; eexists; reflexivity. }
  assert (Ht : has_objects todo_template_example "categories" 3).
  { eexists _, _. split; [reflexivity|]. split; [reflexivity|].
    split; [simpl; lia|].
    intros [|[|[|i]]] Hi; try lia; eexists; reflexivity. }
  split; [exact Hf|]. split; [exact Hs|]. split; [exact Ht|].
  destruct (@sheets_and_todo_agree_under_frozen_clock R sheets_template_example
              todo_template_example assignments_example 0%nat 7%nat Hf)
    as (_ & _ & _ & _ & _ & _ & Hrun).
  exact (Hrun Hs Ht).
Defined.

(** The urgent list of the example: the assignments due on 2 January and on
    25 December, whose rows show 1 and -7 days. *)
Example urgent_list_and_rows_of_the_example :
  map (fun p => snd p)
      (combine assignments_example
         (fst (@days_trace (frozen_runtime new_year_2024) assignments_example 0%nat)))
  = [Some 1; Some 30; None; Some (-7)] /\
  urgent_important
    (fst (@todo_loop (frozen_runtime new_year_2024) assignments_example
            (mktodo [] [] []) 7%nat))
  = [ @todo_task (frozen_runtime new_year_2024) (nth 0 assignments_example []);
      @todo_task (frozen_runtime new_year_2024) (nth 3 assignments_example []) ].
Proof. vm_compute. split; reflexivity. Qed.
